(** * The NLP annotation service (python-nlp/main.py), embedded in Rocq

    The service is a FastAPI application: six analyzer routes, the combined
    [/analyze] route, two helper functions (readability, language) and the
    optional Redis cache.  This file embeds the handlers as functions in a
    small state-and-exception monad over an explicit world (clock, Redis
    store, log, trace of observable events), and proves the properties
    the specification states about them.

    Conventions of the embedding
    - A Python [str] is a [string] of ASCII characters; [str.lower],
      [str.strip], [str.split] and the regex classes [\w] and [\b] are the
      ASCII ones.
    - A Python [float] is a primitive binary64 float ([PrimFloat.float]),
      with the IEEE operations of the kernel.
    - The toolkit (spaCy pipeline, VADER analyzer, NLTK tokenizers), the
      JSON encoder and the iteration order of a Python [set] are not part
      of the repository: they are the fields of an environment record. *)

From Stdlib Require Import ZArith List Bool Lia Ascii String DecimalString.
From Stdlib Require Import DecimalPos DecimalZ.
From Stdlib Require Import Floats.
From stdpp Require Import base option list strings gmap.

Set Warnings "-inexact-float".

Local Open Scope Z_scope.
Local Open Scope string_scope.
Local Open Scope list_scope.

(* ===================================================================== *)
(** ** Python strings *)
(* ===================================================================== *)

Module PyStr.

Notation "a +++ b" := (String.append a b)
  (at level 60, right associativity) : string_scope.

Definition code (c : ascii) : nat := nat_of_ascii c.

Definition between (lo hi n : nat) : bool :=
  (Nat.leb lo n) && (Nat.leb n hi).

(** [str.isspace] on the ASCII range: TAB..CR, FS..US and the space. *)
Definition is_space (c : ascii) : bool :=
  between 9 13 (code c) || between 28 32 (code c).

Definition is_upper (c : ascii) : bool := between 65 90 (code c).

(** [\w] of the [re] module on the ASCII range: letters, digits, [_].
    Outside that range Python goes by the Unicode tables (an accented
    letter is a word character there); what is stated of whole words
    below is stated of ASCII texts. *)
Definition is_word (c : ascii) : bool :=
  between 48 57 (code c) || between 65 90 (code c)
  || between 97 122 (code c) || Nat.eqb (code c) 95.

Definition lower_char (c : ascii) : ascii :=
  if is_upper c then ascii_of_nat (code c + 32) else c.

(** [s.lower()] *)
Fixpoint lower (s : string) : string :=
  match s with
  | EmptyString => EmptyString
  | String c r => String (lower_char c) (lower r)
  end.

(** [s.lstrip()] *)
Fixpoint lstrip (s : string) : string :=
  match s with
  | EmptyString => EmptyString
  | String c r => if is_space c then lstrip r else s
  end.

(** [s.rstrip()]: a character is dropped when it is a space and
    everything after it has been dropped too. *)
Fixpoint rstrip (s : string) : string :=
  match s with
  | EmptyString => EmptyString
  | String c r =>
      match rstrip r with
      | EmptyString => if is_space c then EmptyString else String c EmptyString
      | r' => String c r'
      end
  end.

(** [s.strip()] *)
Definition strip (s : string) : string := rstrip (lstrip s).

(** [len(s)] *)
Definition len (s : string) : Z := Z.of_nat (String.length s).

(** [s.startswith(p)] *)
Fixpoint startswith (p s : string) : bool :=
  match p, s with
  | EmptyString, _ => true
  | String a p', String b s' => Ascii.eqb a b && startswith p' s'
  | String _ _, EmptyString => false
  end.

(** [p in s]: [p] occurs in [s] as a contiguous substring. *)
Fixpoint contains (p s : string) : bool :=
  startswith p s ||
  match s with
  | EmptyString => false
  | String _ s' => contains p s'
  end.

(** [x in l] for a list of strings. *)
Definition mem (x : string) (l : list string) : bool :=
  existsb (String.eqb x) l.

(** [s.split()]: the maximal runs of non-space characters.  [cur] is
    the run being read. *)
Fixpoint split_go (s : string) (cur : option string) : list string :=
  match s with
  | EmptyString =>
      match cur with Some w => [w] | None => [] end
  | String c r =>
      if is_space c then
        match cur with
        | Some w => w :: split_go r None
        | None => split_go r None
        end
      else
        match cur with
        | Some w => split_go r (Some (w +++ String c EmptyString))
        | None => split_go r (Some (String c EmptyString))
        end
  end.

Definition split (s : string) : list string := split_go s None.

(** [str(n)] for an [int]. *)
Definition str_of_int (n : Z) : string :=
  NilZero.string_of_int (Z.to_int n).

(** [f"{x}"] for an [Optional[int]]: [None] prints as [None]. *)
Definition format_opt_int (x : option Z) : string :=
  match x with
  | None => "None"
  | Some n => str_of_int n
  end.

(** Truth value of an [Optional[str]]: [None] and [""] are false. *)
Definition truthy (x : option string) : bool :=
  match x with
  | None => false
  | Some EmptyString => false
  | Some (String _ _) => true
  end.

(** [f"{x}"] for an [Optional[str]]. *)
Definition format_opt_str (x : option string) : string :=
  match x with
  | None => "None"
  | Some s => s
  end.

End PyStr.
Import PyStr.

(* ===================================================================== *)
(** ** The regular expressions of the ambiguity detector *)
(* ===================================================================== *)

Module Re.

(** The patterns the service builds are [r'\b' + term + r'\b'] for a
    term made of lower-case letters and spaces: a word boundary, the
    characters of the term as literals, a word boundary. *)
Inductive item :=
| WordBoundary
| Lit (c : ascii).

Fixpoint literals (s : string) : list item :=
  match s with
  | EmptyString => []
  | String c r => Lit c :: literals r
  end.

(** [r'\b' + term + r'\b'] *)
Definition word_pattern (term : string) : list item :=
  WordBoundary :: literals term ++ [WordBoundary].

Definition word_before (prev : option ascii) : bool :=
  match prev with
  | Some c => is_word c
  | None => false
  end.

Definition word_after (rest : string) : bool :=
  match rest with
  | String c _ => is_word c
  | EmptyString => false
  end.

(** [\b]: exactly one side of the position is a word character; the
    two ends of the text count as non-word. *)
Definition boundary (prev : option ascii) (rest : string) : bool :=
  xorb (word_before prev) (word_after rest).

(** The pattern matches at the current position: [prev] is the
    character just before it, [rest] the text from it on. *)
Fixpoint match_here (p : list item) (prev : option ascii) (rest : string) : bool :=
  match p with
  | [] => true
  | WordBoundary :: p' => boundary prev rest && match_here p' prev rest
  | Lit c :: p' =>
      match rest with
      | String d rest' => Ascii.eqb c d && match_here p' (Some d) rest'
      | EmptyString => false
      end
  end.

Fixpoint search_from (p : list item) (prev : option ascii) (rest : string) : bool :=
  match_here p prev rest ||
  match rest with
  | String d rest' => search_from p (Some d) rest'
  | EmptyString => false
  end.

(** [re.search(p, text)] as a truth value. *)
Definition search (p : list item) (text : string) : bool :=
  search_from p None text.



End Re.

(* ===================================================================== *)
(** ** Python floats *)
(* ===================================================================== *)

Module PyFloat.

Local Open Scope float_scope.

(** [float(n)] for an [int] below 2^53 in absolute value (every length
    and every duration of the service is), where the conversion is exact. *)
Definition of_int (n : Z) : float :=
  if (n <? 0)%Z then - PrimFloat.of_uint63 (Uint63.of_Z (- n))
  else PrimFloat.of_uint63 (Uint63.of_Z n).

(** [a / b] for two such [int]s: true division, the quotient of the
    two floats rounded once. *)
Definition int_div (a b : Z) : float := of_int a / of_int b.

(** [max(a, b)]: the first argument unless the second is greater. *)
Definition max (a b : float) : float := if a <? b then b else a.

(** [min(a, b)]: the first argument unless the second is smaller. *)
Definition min (a b : float) : float := if b <? a then b else a.

(** [x >= y] and [x <= y] *)
Definition ge (x y : float) : bool := y <=? x.
Definition le (x y : float) : bool := x <=? y.

End PyFloat.

(* ===================================================================== *)
(** ** Exceptions, the world and the handler monad *)
(* ===================================================================== *)

(** Everything the handlers raise or catch is a subclass of [Exception]:
    FastAPI's [HTTPException] and the errors of the libraries. *)
Inductive exn :=
| HTTPException (status_code : Z) (detail : string)
| LibraryError (cls : string) (msg : string).

Inductive outcome (A : Type) :=
| Ok (a : A)
| Raise (e : exn).
Arguments Ok {A} a.
Arguments Raise {A} e.

(** The eight stages of the combined analysis. *)
Inductive Stage :=
| Entities | Topics | Sentiment | Ambiguities
| Timeline | KeyPhrases | Readability | Language.

(** What an observer of one request can see happen, in order. *)
Inductive Event :=
| EvNow (t : Z)            (* [datetime.now()] was read, giving [t] *)
| EvStage (s : Stage)      (* stage [s] has run (to a result or an error) *)
| EvSetex (key : string).  (* [redis_client.setex(key, ...)] was called *)

(** The mutable surroundings of a request.  [now] is the wall clock in
    microseconds; [redis_up] says whether the Redis server carries out
    a command sent to it now; [redis_db] maps a key to its expiry in
    seconds and its value. *)
Record World := mkWorld {
  now : Z;
  redis_up : bool;
  redis_db : gmap string (Z * string);
  logs : list string;
  trace : list Event
}.

Definition with_now (t : Z) (w : World) : World :=
  mkWorld t (redis_up w) (redis_db w) (logs w) (trace w).
Definition with_db (d : gmap string (Z * string)) (w : World) : World :=
  mkWorld (now w) (redis_up w) d (logs w) (trace w).
Definition with_logs (l : list string) (w : World) : World :=
  mkWorld (now w) (redis_up w) (redis_db w) l (trace w).
Definition with_trace (t : list Event) (w : World) : World :=
  mkWorld (now w) (redis_up w) (redis_db w) (logs w) t.

Definition record_event (e : Event) (w : World) : World :=
  with_trace (trace w ++ [e]) w.

Module Handler.

Definition M (A : Type) : Type := World -> outcome A * World.

Definition ret {A} (a : A) : M A := fun w => (Ok a, w).

Definition raise {A} (e : exn) : M A := fun w => (Raise e, w).

Definition bind {A B} (m : M A) (k : A -> M B) : M B :=
  fun w =>
    match m w with
    | (Ok a, w') => k a w'
    | (Raise e, w') => (Raise e, w')
    end.

(** [try: m except Exception as e: h e] *)
Definition try_except {A} (m : M A) (h : exn -> M A) : M A :=
  fun w =>
    match m w with
    | (Ok a, w') => (Ok a, w')
    | (Raise e, w') => h e w'
    end.

(** The result of calling a function of the toolkit. *)
Definition call {A} (r : outcome A) : M A := fun w => (r, w).

(** [logger.error(msg)] *)
Definition logger_error (msg : string) : M unit :=
  fun w => (Ok tt, with_logs (logs w ++ [msg]) w).

(** [datetime.now()] *)
Definition datetime_now : M Z :=
  fun w => (Ok (now w), record_event (EvNow (now w)) w).

(** [redis_client.setex(key, ttl, value)]: a server that does not
    answer makes the client raise. *)
Definition setex (key : string) (ttl : Z) (value : string) : M unit :=
  fun w =>
    let w' := record_event (EvSetex key) w in
    if redis_up w
    then (Ok tt, with_db (<[key := (ttl, value)]> (redis_db w)) w')
    else (Raise (LibraryError "ConnectionError" "Error connecting to Redis"), w').

End Handler.
Import Handler.

Notation "x <- m ;; k" := (bind m (fun x => k))
  (at level 100, m at next level, right associativity).
Notation "m ;;; k" := (bind m (fun _ => k))
  (at level 100, right associativity).

(* ===================================================================== *)
(** ** The data model (the pydantic classes) *)
(* ===================================================================== *)

Record TextInput := mkTextInput {
  text : string;
  session_id : option string;
  turn_number : option Z
}.

Record EntityResult := mkEntityResult {
  ent_text : string;
  ent_label : string;
  ent_start : Z;
  ent_end : Z;
  ent_confidence : float
}.

Record TopicResult := mkTopicResult {
  topic : string;
  topic_confidence : float;
  keywords : list string
}.

Record SentimentResult := mkSentimentResult {
  compound : float;
  positive : float;
  negative : float;
  neutral : float;
  label : string
}.

Record AmbiguityResult := mkAmbiguityResult {
  amb_text : string;
  amb_type : string;
  amb_confidence : float;
  suggestions : list string
}.

Record TimelineEvent := mkTimelineEvent {
  event : string;
  timestamp : option string;
  reference : string;
  tl_confidence : float
}.

Record NLPAnalysisResult := mkNLPAnalysisResult {
  entities : list EntityResult;
  topics : list TopicResult;
  sentiment : SentimentResult;
  ambiguities : list AmbiguityResult;
  timeline_events : list TimelineEvent;
  key_phrases : list string;
  language : string;
  readability_score : float;
  processing_time : float
}.

(* ===================================================================== *)
(** ** The toolkit and the process-wide handles *)
(* ===================================================================== *)

(** A span of a spaCy document: [ent.text], [ent.label_],
    [ent.start_char], [ent.end_char]. *)
Record Span := mkSpan {
  span_text : string;
  label_ : string;
  start_char : Z;
  end_char : Z
}.

(** What the handlers read of a spaCy document: [doc.ents] and the texts
    of [doc.noun_chunks]. *)
Record Doc := mkDoc {
  ents : list Span;
  noun_chunks : list string
}.

(** The dictionary [sia.polarity_scores] returns. *)
Record Scores := mkScores {
  sc_compound : float;
  sc_pos : float;
  sc_neg : float;
  sc_neu : float
}.

(** The module-level handles, fixed when the process starts, and the
    library functions the handlers call.  [nlp] and [sia] are [None]
    when their initialization failed; [redis_client] is [false] when the
    start-up ping failed.  A call of the toolkit may raise. *)
Record Env := mkEnv {
  nlp : option (string -> outcome Doc);
  sia : option (string -> outcome Scores);
  stop_words : list string;
  sent_tokenize : string -> outcome (list string);
  word_tokenize : string -> outcome (list string);
  redis_client : bool;
  (** [json.dumps(result.dict())] *)
  json_dumps : NLPAnalysisResult -> string;
  (** [list(set(l))]: the iteration order of a set is the interpreter's *)
  list_of_set : list string -> list string;
  (** [f"{e}"] *)
  str_of_exn : exn -> string;
  (** the microseconds that pass while a stage runs *)
  duration : Stage -> Z
}.

(* ===================================================================== *)
(** ** The handlers *)
(* ===================================================================== *)

Section Service.

Variable E : Env.

Local Open Scope float_scope.

(** *** /entities *)

Definition entity_of_span (ent : Span) : EntityResult :=
  mkEntityResult (span_text ent) (label_ ent) (start_char ent) (end_char ent) 0.8.

Definition extract_entities (input_data : TextInput) : M (list EntityResult) :=
  match nlp E with
  | None => raise (HTTPException 503 "SpaCy model not available")
  | Some nlp =>
      try_except
        (doc <- call (nlp (text input_data)) ;;
         ret (fold_left (fun entities ent => entities ++ [entity_of_span ent])
                        (ents doc) []))
        (fun e =>
           logger_error ("Entity extraction failed: " +++ str_of_exn E e) ;;;
           raise (HTTPException 500 "Entity extraction failed"))
  end.

(** *** /topics *)

Definition topic_labels : list string := ["PERSON"; "ORG"; "GPE"; "PRODUCT"].

Definition topic_of (t : string) : TopicResult :=
  mkTopicResult t 0.7 (split t).

Definition extract_topics (input_data : TextInput) : M (list TopicResult) :=
  match nlp E with
  | None => raise (HTTPException 503 "SpaCy model not available")
  | Some nlp =>
      try_except
        (doc <- call (nlp (text input_data)) ;;
         let noun_phrases :=
           map lower (List.filter (fun chunk => (2 <? len (strip chunk))%Z)
                             (noun_chunks doc)) in
         let entity_topics :=
           map (fun ent => lower (span_text ent))
               (List.filter (fun ent => mem (label_ ent) topic_labels) (ents doc)) in
         let all_topics := list_of_set E (noun_phrases ++ entity_topics) in
         ret (fold_left (fun topics t => topics ++ [topic_of t])
                        (firstn 10 all_topics) []))
        (fun e =>
           logger_error ("Topic extraction failed: " +++ str_of_exn E e) ;;;
           raise (HTTPException 500 "Topic extraction failed"))
  end.

(** *** /sentiment *)

Definition sentiment_label (compound : float) : string :=
  if PyFloat.ge compound 0.05 then "positive"
  else if PyFloat.le compound (-0.05) then "negative"
  else "neutral".

Definition analyze_sentiment (input_data : TextInput) : M SentimentResult :=
  match sia E with
  | None => raise (HTTPException 503 "NLTK sentiment analyzer not available")
  | Some sia =>
      try_except
        (scores <- call (sia (text input_data)) ;;
         let label := sentiment_label (sc_compound scores) in
         ret (mkSentimentResult (sc_compound scores) (sc_pos scores)
                                (sc_neg scores) (sc_neu scores) label))
        (fun e =>
           logger_error ("Sentiment analysis failed: " +++ str_of_exn E e) ;;;
           raise (HTTPException 500 "Sentiment analysis failed"))
  end.

(** *** /ambiguities *)

Definition ambiguous_pronouns : list string :=
  ["it"; "this"; "that"; "they"; "them"; "he"; "she"; "him"; "her"].
Definition vague_quantifiers : list string :=
  ["some"; "many"; "few"; "several"; "most"; "a lot of"].
Definition temporal_vague : list string :=
  ["soon"; "later"; "recently"; "a while ago"; "sometime"].

Definition pronoun_result (pronoun : string) : AmbiguityResult :=
  mkAmbiguityResult pronoun "ambiguous_pronoun" 0.7
    ["Specify what '" +++ pronoun +++ "' refers to"].
Definition quantifier_result (quantifier : string) : AmbiguityResult :=
  mkAmbiguityResult quantifier "vague_quantifier" 0.6
    ["Specify a more precise quantity than '" +++ quantifier +++ "'"].
Definition temporal_result (temporal : string) : AmbiguityResult :=
  mkAmbiguityResult temporal "temporal_ambiguity" 0.8
    ["Specify a more precise time than '" +++ temporal +++ "'"].

(** One of the three loops: [for term in terms: if re.search(...):
    ambiguities.append(mk(term))]. *)
Definition scan_terms (mk : string -> AmbiguityResult) (terms : list string)
           (text : string) (ambiguities : list AmbiguityResult)
  : list AmbiguityResult :=
  fold_left
    (fun ambiguities term =>
       if Re.search (Re.word_pattern term) text
       then ambiguities ++ [mk term]
       else ambiguities)
    terms ambiguities.

Definition detect_ambiguities (input_data : TextInput) : M (list AmbiguityResult) :=
  try_except
    (let ambiguities := [] in
     let text := lower (text input_data) in
     let ambiguities := scan_terms pronoun_result ambiguous_pronouns text ambiguities in
     let ambiguities := scan_terms quantifier_result vague_quantifiers text ambiguities in
     let ambiguities := scan_terms temporal_result temporal_vague text ambiguities in
     ret ambiguities)
    (fun e =>
       logger_error ("Ambiguity detection failed: " +++ str_of_exn E e) ;;;
       raise (HTTPException 500 "Ambiguity detection failed")).

(** *** /timeline *)

Definition time_labels : list string := ["DATE"; "TIME"; "EVENT"].

Definition temporal_keywords : list string :=
  ["yesterday"; "today"; "tomorrow"; "next week"; "last month";
   "ago"; "later"; "before"; "after"].

Definition entity_event (ent : Span) : TimelineEvent :=
  mkTimelineEvent (span_text ent) None (label_ ent) 0.7.

Definition keyword_event (sentence keyword : string) : TimelineEvent :=
  mkTimelineEvent (strip sentence) None ("temporal_keyword_" +++ keyword) 0.6.

(** The inner loop over the keywords, with its [break]. *)
Fixpoint scan_keywords (sentence sentence_lower : string) (kws : list string)
         (events : list TimelineEvent) : list TimelineEvent :=
  match kws with
  | [] => events
  | keyword :: kws' =>
      if contains keyword sentence_lower
      then events ++ [keyword_event sentence keyword]
      else scan_keywords sentence sentence_lower kws' events
  end.

(** The outer loop over the sentences. *)
Definition scan_sentences (sentences : list string) (events : list TimelineEvent)
  : list TimelineEvent :=
  fold_left
    (fun events sentence =>
       let sentence_lower := lower sentence in
       scan_keywords sentence sentence_lower temporal_keywords events)
    sentences events.

Definition extract_timeline_events (input_data : TextInput) : M (list TimelineEvent) :=
  match nlp E with
  | None => raise (HTTPException 503 "SpaCy model not available")
  | Some nlp =>
      try_except
        (doc <- call (nlp (text input_data)) ;;
         let events := [] in
         let time_entities :=
           List.filter (fun ent => mem (label_ ent) time_labels) (ents doc) in
         let events :=
           fold_left (fun events ent => events ++ [entity_event ent])
                     time_entities events in
         sentences <- call (sent_tokenize E (text input_data)) ;;
         ret (scan_sentences sentences events))
        (fun e =>
           logger_error ("Timeline extraction failed: " +++ str_of_exn E e) ;;;
           raise (HTTPException 500 "Timeline extraction failed"))
  end.

(** *** /keyphrases *)

Definition extract_key_phrases (input_data : TextInput) : M (list string) :=
  match nlp E with
  | None => raise (HTTPException 503 "SpaCy model not available")
  | Some nlp =>
      try_except
        (doc <- call (nlp (text input_data)) ;;
         let key_phrases := [] in
         let key_phrases :=
           fold_left
             (fun key_phrases chunk =>
                if (2 <? len (strip chunk))%Z
                   && negb (mem (lower chunk) (stop_words E))
                then key_phrases ++ [strip chunk]
                else key_phrases)
             (noun_chunks doc) key_phrases in
         let key_phrases :=
           fold_left
             (fun key_phrases ent =>
                if negb (mem (span_text ent) key_phrases)
                then key_phrases ++ [span_text ent]
                else key_phrases)
             (ents doc) key_phrases in
         ret (firstn 20 key_phrases))
        (fun e =>
           logger_error ("Key phrase extraction failed: " +++ str_of_exn E e) ;;;
           raise (HTTPException 500 "Key phrase extraction failed"))
  end.

(** *** The helper functions *)

(** [sum(len(word) for word in words)] *)
Definition sum_len (words : list string) : Z :=
  fold_left (fun acc word => (acc + len word)%Z) words 0%Z.

Definition calculate_readability_score (text : string) : M float :=
  if String.eqb (strip text) "" then ret 0.0
  else
    sentences <- call (sent_tokenize E text) ;;
    words <- call (word_tokenize E text) ;;
    if (Z.of_nat (length sentences) =? 0)%Z || (Z.of_nat (length words) =? 0)%Z
    then ret 0.0
    else
      let avg_sentence_length :=
        PyFloat.int_div (Z.of_nat (length words)) (Z.of_nat (length sentences)) in
      let avg_word_length :=
        PyFloat.int_div (sum_len words) (Z.of_nat (length words)) in
      let readability := (avg_sentence_length * 0.5) + (avg_word_length * 0.3) in
      ret (PyFloat.min 1.0 (PyFloat.max 0.0 (1.0 - (readability / PyFloat.of_int 20)))).

Definition detect_language (text : string) : M string := ret "en".

(** *** /analyze *)

(** [delta.total_seconds()] for a difference of [delta] microseconds. *)
Definition total_seconds (delta : Z) : float := PyFloat.int_div delta 1000000.

(** Running a stage takes its time and leaves its mark in the trace,
    whether it returns or raises. *)
Definition stage {A} (s : Stage) (m : M A) : M A :=
  fun w =>
    let (r, w') := m w in
    (r, record_event (EvStage s) (with_now (now w' + duration E s)%Z w')).

Definition cache_key (input_data : TextInput) : string :=
  "nlp_analysis:" +++ format_opt_str (session_id input_data)
    +++ ":" +++ format_opt_int (turn_number input_data).

Definition analyze_text (input_data : TextInput) : M NLPAnalysisResult :=
  start_time <- datetime_now ;;
  try_except
    (entities <- stage Entities (extract_entities input_data) ;;
     topics <- stage Topics (extract_topics input_data) ;;
     sentiment <- stage Sentiment (analyze_sentiment input_data) ;;
     ambiguities <- stage Ambiguities (detect_ambiguities input_data) ;;
     timeline_events <- stage Timeline (extract_timeline_events input_data) ;;
     key_phrases <- stage KeyPhrases (extract_key_phrases input_data) ;;
     end_time <- datetime_now ;;
     let processing_time := total_seconds (end_time - start_time) in
     readability_score <-
       stage Readability (calculate_readability_score (text input_data)) ;;
     language <- stage Language (detect_language (text input_data)) ;;
     let result :=
       mkNLPAnalysisResult entities topics sentiment ambiguities timeline_events
                           key_phrases language readability_score processing_time in
     (if redis_client E && truthy (session_id input_data)
      then setex (cache_key input_data) 3600 (json_dumps E result)
      else ret tt) ;;;
     ret result)
    (fun e =>
       logger_error ("Complete NLP analysis failed: " +++ str_of_exn E e) ;;;
       raise (HTTPException 500 "NLP analysis failed")).

(** *** /health *)

Definition health_check : M (string * string * (bool * bool * bool)) :=
  ret ("healthy", "nlp-service",
       (bool_decide (is_Some (nlp E)), bool_decide (is_Some (sia E)), redis_client E)).

End Service.

(* ===================================================================== *)
(** ** A concrete toolkit, for running the handlers on examples *)
(* ===================================================================== *)

(** The text of the timeline scenario of the specification. *)
Definition met_text : string :=
  "We met yesterday and I think we'll meet again next week.".

(** A sentence that has a keyword inside a longer word. *)
Definition agony_text : string := "The agony was real.".

Module Demo.

Local Open Scope float_scope.

Definition is_terminator (c : ascii) : bool :=
  Nat.eqb (code c) 46 || Nat.eqb (code c) 33 || Nat.eqb (code c) 63.

(** A sentence splitter in the manner of NLTK's: a sentence ends at a
    [.], [!] or [?] that is followed by white space or by the end of the
    text; the white space between two sentences belongs to neither.
    [cur] is the sentence being read. *)
Fixpoint sentences_go (s : string) (cur : string) : list string :=
  match s with
  | EmptyString =>
      match cur with EmptyString => [] | _ => [cur] end
  | String c r =>
      match cur with
      | EmptyString =>
          if is_space c then sentences_go r EmptyString
          else sentences_go r (String c EmptyString)
      | _ =>
          if is_terminator c && negb (Re.word_after r) &&
             match r with String d _ => is_space d | EmptyString => true end
          then (cur +++ String c EmptyString) :: sentences_go r EmptyString
          else sentences_go r (cur +++ String c EmptyString)
      end
  end.

Definition sentences (s : string) : outcome (list string) :=
  Ok (sentences_go s EmptyString).

Definition is_punct (c : ascii) : bool :=
  is_terminator c || Nat.eqb (code c) 44 || Nat.eqb (code c) 59 || Nat.eqb (code c) 58.

(** A word splitter: the runs of word characters, every punctuation
    mark a token of its own, white space dropped. *)
Fixpoint words_go (s : string) (cur : string) : list string :=
  let flush := match cur with EmptyString => [] | _ => [cur] end in
  match s with
  | EmptyString => flush
  | String c r =>
      if is_space c then flush ++ words_go r EmptyString
      else if is_punct c then flush ++ String c EmptyString :: words_go r EmptyString
      else words_go r (cur +++ String c EmptyString)
  end.

Definition words (s : string) : outcome (list string) :=
  Ok (words_go s EmptyString).

(** A pipeline that knows the two dates of [met_text] and one company,
    fails on the text [boom] and finds nothing anywhere else. *)
Definition pipeline (s : string) : outcome Doc :=
  if String.eqb s met_text then
    Ok (mkDoc [mkSpan "yesterday" "DATE" 7 16; mkSpan "next week" "DATE" 46 55]
              ["We"; "I"; "we"])
  else if String.eqb s "Acme hired them." then
    Ok (mkDoc [mkSpan "Acme" "ORG" 0 4] ["Acme"; "them"])
  else if String.eqb s "boom" then
    Raise (LibraryError "ValueError" "cannot parse")
  else Ok (mkDoc [] []).

Definition polarity (s : string) : outcome Scores :=
  if contains "great" (lower s) then Ok (mkScores 0.6249 0.577 0 0.423)
  else Ok (mkScores 0 0 0 1).

Fixpoint dedup (l : list string) : list string :=
  match l with
  | [] => []
  | x :: r => x :: List.filter (fun y => negb (String.eqb x y)) (dedup r)
  end.

Definition show_exn (e : exn) : string :=
  match e with
  | HTTPException status detail => str_of_int status +++ ": " +++ detail
  | LibraryError _ msg => msg
  end.

Definition encode (r : NLPAnalysisResult) : string :=
  "json(" +++ language r +++ ")".

Definition durations (s : Stage) : Z :=
  match s with
  | Entities => 900 | Topics => 700 | Sentiment => 300 | Ambiguities => 50
  | Timeline => 800 | KeyPhrases => 600 | Readability => 120 | Language => 1
  end.

(** Everything loaded, the cache client connected. *)
Definition env : Env :=
  mkEnv (Some pipeline) (Some polarity) ["the"; "a"; "we"; "i"; "them"]
        sentences words true encode dedup show_exn durations.

(** The spaCy model is missing. *)
Definition env_no_nlp : Env :=
  mkEnv None (Some polarity) ["the"; "a"; "we"; "i"; "them"]
        sentences words true encode dedup show_exn durations.

(** The NLTK initialization failed: no analyzer, no stop words. *)
Definition env_no_sia : Env :=
  mkEnv (Some pipeline) None [] sentences words true encode dedup show_exn durations.

(** A world at time [1000] with an empty store. *)
Definition world (up : bool) : World := mkWorld 1000 up ∅ [] [].

End Demo.


(* ===================================================================== *)
(** ** The notions the statements are made of *)
(* ===================================================================== *)

(** The log grows by the messages [msgs], nothing else changes. *)
Definition add_logs (msgs : list string) (w : World) : World :=
  with_logs (logs w ++ msgs) w.

(** A computation that only reads its arguments and the toolkit: it
    returns the same value in every world and leaves the world as it
    was, or raises the same exception in every world after logging. *)
Definition quiet {A} (m : M A) : Prop :=
  (exists a, forall w, m w = (Ok a, w)) \/
  (exists e msgs, forall w, m w = (Raise e, add_logs msgs w)).

(** The clock after the stages [l] have run one after the other. *)
Definition clock_after (E : Env) (l : list Stage) (t : Z) : Z :=
  fold_left (fun t s => t + duration E s) l t.

(** The stages that run between the two readings of the clock. *)
Definition timed_stages : list Stage :=
  [Entities; Topics; Sentiment; Ambiguities; Timeline; KeyPhrases].

(** The stages that run after the second reading. *)
Definition untimed_stages : list Stage := [Readability; Language].

Definition all_stages : list Stage := timed_stages ++ untimed_stages.

Definition is_setex (ev : Event) : bool :=
  match ev with EvSetex _ => true | _ => false end.

Definition forget {A} (r : outcome A) : outcome unit :=
  match r with
  | Ok _ => Ok tt
  | Raise e => Raise e
  end.

(** How stage [s] of the combined analysis ends on [input_data]. *)
Definition stage_outcome (E : Env) (s : Stage) (input_data : TextInput) (w : World)
  : outcome unit :=
  match s with
  | Entities => forget (fst (extract_entities E input_data w))
  | Topics => forget (fst (extract_topics E input_data w))
  | Sentiment => forget (fst (analyze_sentiment E input_data w))
  | Ambiguities => forget (fst (detect_ambiguities E input_data w))
  | Timeline => forget (fst (extract_timeline_events E input_data w))
  | KeyPhrases => forget (fst (extract_key_phrases E input_data w))
  | Readability => forget (fst (calculate_readability_score E (text input_data) w))
  | Language => forget (fst (detect_language (text input_data) w))
  end.

Definition stage_raises (E : Env) (s : Stage) (input_data : TextInput) (w : World) : Prop :=
  exists e, stage_outcome E s input_data w = Raise e.

(** The world once the eight stages have all returned, before the
    cache step. *)
Definition assembled_world (E : Env) (w : World) : World :=
  let t0 := now w in
  let t1 := clock_after E timed_stages t0 in
  mkWorld (clock_after E untimed_stages t1) (redis_up w) (redis_db w) (logs w)
          (trace w ++ [EvNow t0] ++ map EvStage timed_stages
                   ++ [EvNow t1] ++ map EvStage untimed_stages).

(** The last step of [/analyze], from the assembled [result] on. *)
Definition cache_step (E : Env) (input_data : TextInput) (result : NLPAnalysisResult)
           (w : World) : outcome NLPAnalysisResult * World :=
  if redis_client E && truthy (session_id input_data) then
    let key := cache_key input_data in
    let w' := record_event (EvSetex key) w in
    if redis_up w
    then (Ok result, with_db (<[key := (3600, json_dumps E result)]> (redis_db w)) w')
    else (Raise (HTTPException 500 "NLP analysis failed"),
          add_logs ["Complete NLP analysis failed: " +++
                    str_of_exn E (LibraryError "ConnectionError" "Error connecting to Redis")]
                   w')
  else (Ok result, w).

(** A request that failed on the exception [e], seen from outside. *)
Definition failed_request (E : Env) (e : exn) (w : World)
           (out : outcome NLPAnalysisResult * World) : Prop :=
  fst out = Raise (HTTPException 500 "NLP analysis failed") /\
  redis_db (snd out) = redis_db w /\
  redis_up (snd out) = redis_up w /\
  (exists evs, trace (snd out) = trace w ++ evs /\
               forallb (fun ev => negb (is_setex ev)) evs = true) /\
  In ("Complete NLP analysis failed: " +++ str_of_exn E e) (logs (snd out)).

(** The events one request adds to the trace. *)
Definition events_of (E : Env) (input_data : TextInput) (w : World) : list Event :=
  skipn (length (trace w)) (trace (snd (analyze_text E input_data w))).

Definition is_now (ev : Event) : bool :=
  match ev with EvNow _ => true | _ => false end.

(** The events up to and including the last reading of the clock. *)
Fixpoint until_last_now (evs : list Event) : list Event :=
  match evs with
  | [] => []
  | ev :: rest =>
      if existsb is_now rest then ev :: until_last_now rest
      else if is_now ev then [ev] else []
  end.

(** The events after the last reading of the clock. *)
Definition after_last_now (evs : list Event) : list Event :=
  skipn (length (until_last_now evs)) evs.

Definition stage_eqb (a b : Stage) : bool :=
  match a, b with
  | Entities, Entities | Topics, Topics | Sentiment, Sentiment
  | Ambiguities, Ambiguities | Timeline, Timeline | KeyPhrases, KeyPhrases
  | Readability, Readability | Language, Language => true
  | _, _ => false
  end.

Definition ran (s : Stage) (evs : list Event) : bool :=
  existsb (fun ev => match ev with EvStage s' => stage_eqb s s' | _ => false end) evs.

(** The sum of the durations of the stages [l]. *)
Definition total_duration (E : Env) (l : list Stage) : Z :=
  fold_right (fun s acc => duration E s + acc) 0 l.

Definition boom_request : TextInput := mkTextInput "boom" (Some "s1") (Some 2).

Definition redis_error : exn :=
  LibraryError "ConnectionError" "Error connecting to Redis".

(** The reading of the specification: a failing cache write is logged
    and the request still returns its result. *)
Definition cache_failure_swallowed (E : Env) (i : TextInput) (w : World) : Prop :=
  exists r, fst (analyze_text E i w) = Ok r.

Definition cached_request : TextInput :=
  mkTextInput met_text (Some "s1") (Some 2).

Definition first_turn_key (sid : string) : string := "nlp_analysis:" +++ sid +++ ":1".

(** The reading of the specification: without a turn number the result
    is stored under the key of turn 1. *)
Definition stored_under_first_turn (E : Env) (i : TextInput) (w : World) : Prop :=
  exists sid v,
    session_id i = Some sid /\
    redis_db (snd (analyze_text E i w)) !! first_turn_key sid = Some v.

Definition turnless_request : TextInput :=
  mkTextInput met_text (Some "s1") None.

Inductive Capability := SpaCy | Vader.

(** The routes that read a capability handle. *)
Inductive Route :=
| RouteEntities | RouteTopics | RouteSentiment
| RouteTimeline | RouteKeyPhrases | RouteAnalyze.

(** Whether the code of a route reads the handle of a capability, its
    own code or the code of a handler it calls. *)
Definition depends_on (r : Route) (c : Capability) : bool :=
  match r, c with
  | RouteEntities, SpaCy | RouteTopics, SpaCy
  | RouteTimeline, SpaCy | RouteKeyPhrases, SpaCy => true
  | RouteSentiment, Vader => true
  | RouteAnalyze, _ => true
  | _, _ => false
  end.

Definition unavailable (E : Env) (c : Capability) : Prop :=
  match c with
  | SpaCy => nlp E = None
  | Vader => sia E = None
  end.

(** How a request to a route ends. *)
Definition respond (E : Env) (r : Route) (i : TextInput) (w : World) : outcome unit :=
  match r with
  | RouteEntities => forget (fst (extract_entities E i w))
  | RouteTopics => forget (fst (extract_topics E i w))
  | RouteSentiment => forget (fst (analyze_sentiment E i w))
  | RouteTimeline => forget (fst (extract_timeline_events E i w))
  | RouteKeyPhrases => forget (fst (extract_key_phrases E i w))
  | RouteAnalyze => forget (fst (analyze_text E i w))
  end.

Definition unavailable_detail (c : Capability) : string :=
  match c with
  | SpaCy => "SpaCy model not available"
  | Vader => "NLTK sentiment analyzer not available"
  end.

(** The reading of the specification: a missing capability shows as
    status 503 on every route that depends on it. *)
Definition service_unavailable (E : Env) (r : Route) (i : TextInput) (w : World) : Prop :=
  exists detail, respond E r i w = Raise (HTTPException 503 detail).

(** The reading of the specification: all eight stages have run when
    the clock is read for the last time. *)
Definition measures_all_stages (E : Env) (i : TextInput) (w : World) : Prop :=
  forall s, ran s (until_last_now (events_of E i w)) = true.

(** A keyword-derived event is known by its reference. *)
Definition is_keyword_event (ev : TimelineEvent) : bool :=
  startswith "temporal_keyword_" (reference ev).

Definition keyword_events (evs : list TimelineEvent) : list TimelineEvent :=
  List.filter is_keyword_event evs.

(** The first keyword of the list, in declaration order, that occurs in
    the lower-cased sentence. *)
Definition first_keyword (sentence : string) : option string :=
  find (fun keyword => contains keyword (lower sentence)) temporal_keywords.

(** What the keyword scan adds for one sentence. *)
Definition sentence_events (sentence : string) : list TimelineEvent :=
  match first_keyword sentence with
  | Some keyword => [keyword_event sentence keyword]
  | None => []
  end.

(** The reading of the specification for [met_text]: two keyword-derived
    events, the first on [yesterday], the second on [next week]. *)
Definition two_keyword_events (evs : list TimelineEvent) : Prop :=
  map reference (keyword_events evs)
  = ["temporal_keyword_yesterday"; "temporal_keyword_next week"].

Definition met_request : TextInput := mkTextInput met_text None None.

Definition agony_request : TextInput := mkTextInput agony_text None None.





(** The test of the three loops. *)
Definition present (text term : string) : bool :=
  Re.search (Re.word_pattern term) text.




Definition soon_request : TextInput :=
  mkTextInput "It was great, I think we'll go there soon. It is soon, it is." None None.

(** [clamp(x, lo, hi)]: [lo] up to [lo], [x] between the bounds, [hi]
    from [hi] on; a value that is not comparable counts as not above [lo]. *)
Definition clamp (x lo hi : float) : float :=
  if (lo <? x)%float then (if (x <? hi)%float then x else hi) else lo.

(** The sum of the lengths of the words. *)
Definition total_chars (words : list string) : Z :=
  fold_right (fun word acc => len word + acc) 0 words.

(** [word_count / sentence_count] *)
Definition avg_sentence_length (words sentences : list string) : float :=
  PyFloat.int_div (Z.of_nat (length words)) (Z.of_nat (length sentences)).

(** The mean length of the words. *)
Definition avg_word_length (words : list string) : float :=
  PyFloat.int_div (total_chars words) (Z.of_nat (length words)).

(** The score of the specification:
    [clamp(1 - (0.5 * avg_sentence_length + 0.3 * avg_word_length) / 20, 0, 1)]. *)
Definition readability_formula (words sentences : list string) : float :=
  clamp (1 - (0.5 * avg_sentence_length words sentences
              + 0.3 * avg_word_length words) / 20)%float
        0%float 1%float.

(** No sentence or no word. *)
Definition degenerate (words sentences : list string) : bool :=
  match sentences, words with
  | [], _ | _, [] => true
  | _, _ => false
  end.

Definition great_request : TextInput :=
  mkTextInput "It was great, I think we'll go there soon" None None.

(* ===================================================================== *)
(** ** The cache management routes *)
(* ===================================================================== *)

(** A value of a JSON body: an integer or a string. *)
Inductive pyval :=
| PyInt (n : Z)
| PyStr (s : string).

(** [d.get(key, default)] *)
Definition dict_get (d : gmap string pyval) (key : string) (default : pyval) : pyval :=
  match d !! key with
  | Some v => v
  | None => default
  end.

Section CacheRoutes.

Variable E : Env.

(** What the server answers to [INFO] when it answers. *)
Variable server_info : gmap string pyval.

(** [redis_client.info()] *)
Definition redis_info : M (gmap string pyval) :=
  fun w => if redis_up w then (Ok server_info, w) else (Raise redis_error, w).

(** [redis_client.dbsize()]: the number of keys of the store (the store
    of the model holds the keys that have not expired). *)
Definition redis_dbsize : M Z :=
  fun w =>
    if redis_up w then (Ok (Z.of_nat (size (redis_db w))), w)
    else (Raise redis_error, w).

(** [redis_client.flushdb()] *)
Definition redis_flushdb : M unit :=
  fun w => if redis_up w then (Ok tt, with_db ∅ w) else (Raise redis_error, w).

(** *** /cache/status *)

Definition cache_status : M (list (string * pyval)) :=
  if negb (redis_client E) then ret [("status", PyStr "unavailable")]
  else
    try_except
      (info <- redis_info ;;
       let connected_clients := dict_get info "connected_clients" (PyInt 0) in
       let used_memory := dict_get info "used_memory_human" (PyStr "0B") in
       total_keys <- redis_dbsize ;;
       ret [("status", PyStr "available");
            ("connected_clients", connected_clients);
            ("used_memory", used_memory);
            ("total_keys", PyInt total_keys)])
      (fun e => ret [("status", PyStr "error"); ("message", PyStr (str_of_exn E e))]).

(** *** /cache/clear *)

Definition clear_cache : M (list (string * pyval)) :=
  if negb (redis_client E) then raise (HTTPException 503 "Redis not available")
  else
    try_except
      (redis_flushdb ;;;
       ret [("message", PyStr "Cache cleared successfully")])
      (fun e =>
         logger_error ("Cache clear failed: " +++ str_of_exn E e) ;;;
         raise (HTTPException 500 "Cache clear failed")).

End CacheRoutes.

(* ===================================================================== *)
(** ** More notions for the statements *)
(* ===================================================================== *)

(** A request to a single-analyzer route: how it ends and the world it
    leaves. *)
Definition serve (E : Env) (r : Route) (i : TextInput) (w : World)
  : outcome unit * World :=
  match r with
  | RouteEntities => let (o, w') := extract_entities E i w in (forget o, w')
  | RouteTopics => let (o, w') := extract_topics E i w in (forget o, w')
  | RouteSentiment => let (o, w') := analyze_sentiment E i w in (forget o, w')
  | RouteTimeline => let (o, w') := extract_timeline_events E i w in (forget o, w')
  | RouteKeyPhrases => let (o, w') := extract_key_phrases E i w in (forget o, w')
  | RouteAnalyze => let (o, w') := analyze_text E i w in (forget o, w')
  end.

(** How the first call of the toolkit that a single-analyzer route makes
    ends on the text of the request; [None] when the handle is missing. *)
Definition capability_call (E : Env) (r : Route) (i : TextInput) : option (outcome unit) :=
  match r with
  | RouteSentiment => option_map (fun f => forget (f (text i))) (sia E)
  | _ => option_map (fun f => forget (f (text i))) (nlp E)
  end.

(** The detail of the processing failure of a route, which is also the
    head of its log line. *)
Definition failure_detail (r : Route) : string :=
  match r with
  | RouteEntities => "Entity extraction failed"
  | RouteTopics => "Topic extraction failed"
  | RouteSentiment => "Sentiment analysis failed"
  | RouteTimeline => "Timeline extraction failed"
  | RouteKeyPhrases => "Key phrase extraction failed"
  | RouteAnalyze => "NLP analysis failed"
  end.

Definition is_analyze (r : Route) : bool :=
  match r with RouteAnalyze => true | _ => false end.

(** The labels from the most negative to the most positive. *)
Definition label_rank (label : string) : Z :=
  if String.eqb label "negative" then 0
  else if String.eqb label "neutral" then 1
  else 2.

(** Everything a request to [/analyze] does when nothing fails, in order. *)
Definition full_events (E : Env) (i : TextInput) (w : World) : list Event :=
  [EvNow (now w)] ++ map EvStage timed_stages
  ++ [EvNow (clock_after E timed_stages (now w))] ++ map EvStage untimed_stages
  ++ [EvSetex (cache_key i)].

(** No colon in a string. *)
Fixpoint colon_free (s : string) : bool :=
  match s with
  | EmptyString => true
  | String c r => negb (Ascii.eqb c ":") && colon_free r
  end.


(** A phrase the key-phrase extractor takes from a noun chunk. *)
Definition chunk_phrase (E : Env) (doc : Doc) (p : string) : Prop :=
  exists chunk, In chunk (noun_chunks doc) /\ p = strip chunk /\ 2 < len p /\
                mem (lower chunk) (stop_words E) = false.


(* ===================================================================== *)
(** ** The domain of the text model and two more notions *)
(* ===================================================================== *)




(** [time_entities] of [/timeline]: the entities labelled DATE, TIME or
    EVENT, in the order of the document. *)
Definition time_entities (doc : Doc) : list Span :=
  List.filter (fun ent => mem (label_ ent) time_labels) (ents doc).


(* ===================================================================== *)
(** * Properties *)
(* ===================================================================== *)

(** ** The embedding at work *)

Example lower_ex : lower "We Met YESTERDAY." = "we met yesterday.".
Proof. reflexivity. Qed.

Example strip_ex : strip "  a b  " = "a b" /\ strip "   " = "".
Proof. split; reflexivity. Qed.

Example split_ex : split " a lot  of " = ["a"; "lot"; "of"].
Proof. reflexivity. Qed.

Example contains_ex : contains "ago" "the agony" = true /\ contains "ago" "again" = false.
Proof. split; reflexivity. Qed.

Example str_of_int_ex :
  str_of_int 0 = "0" /\ str_of_int 12 = "12" /\ str_of_int (-3) = "-3".
Proof. repeat split; reflexivity. Qed.

Example re_search_ex :
  Re.search (Re.word_pattern "it") "was it? yes" = true /\
  Re.search (Re.word_pattern "it") "a bit italic" = false /\
  Re.search (Re.word_pattern "a lot of") "we have a lot of time" = true.
Proof. repeat split; reflexivity. Qed.

Example of_int_ex : PyFloat.of_int 3 = 3%float /\ PyFloat.int_div 7 2 = 3.5%float.
Proof. split; reflexivity. Qed.


Example demo_sentences :
  Demo.sentences met_text = Ok [met_text] /\
  Demo.sentences "It rained. We left early!  Why?" =
    Ok ["It rained."; "We left early!"; "Why?"] /\
  Demo.sentences "   " = Ok [].
Proof. repeat split; reflexivity. Qed.

(** With a full stop after [yesterday] the text has two sentences, and
    each of them gets its keyword-derived event. *)
Example two_sentences_two_keyword_events :
  fst (extract_timeline_events Demo.env
         (mkTextInput "We met yesterday. I think we'll meet again next week." None None)
         (Demo.world true)) =
    Ok [mkTimelineEvent "We met yesterday." None "temporal_keyword_yesterday" 0.6%float;
        mkTimelineEvent "I think we'll meet again next week." None
                        "temporal_keyword_next week" 0.6%float].
Proof. reflexivity. Qed.

Example demo_words :
  Demo.words "Hi there, you." = Ok ["Hi"; "there"; ","; "you"; "."].
Proof. reflexivity. Qed.

(* ===================================================================== *)
(** ** Facts about the world and the stages *)
(* ===================================================================== *)

Section StageFacts.

Variable E : Env.

Lemma add_logs_fields msgs w :
  now (add_logs msgs w) = now w /\
  redis_up (add_logs msgs w) = redis_up w /\
  redis_db (add_logs msgs w) = redis_db w /\
  trace (add_logs msgs w) = trace w /\
  logs (add_logs msgs w) = logs w ++ msgs.
Proof. repeat split. Qed.

Lemma add_no_logs w : add_logs [] w = w.
Proof. destruct w. unfold add_logs, with_logs. simpl. rewrite app_nil_r. reflexivity. Qed.

Ltac run_handler :=
  unfold bind, try_except, call, ret, raise, logger_error; cbv beta iota zeta.

Ltac quiet_ok := left; eexists; intros w; run_handler.
Ltac quiet_raise_logged :=
  right; eexists; eexists [_]; intros w; run_handler; reflexivity.
Ltac quiet_raise_silent :=
  right; eexists; exists []; intros w; run_handler; rewrite add_no_logs; reflexivity.

Lemma extract_entities_quiet i : quiet (extract_entities E i).
Proof.
  unfold extract_entities. destruct (nlp E) as [f|].
  - destruct (f (text i)) as [doc|e] eqn:Hf.
    + quiet_ok. reflexivity.
    + quiet_raise_logged.
  - quiet_raise_silent.
Qed.

Lemma extract_topics_quiet i : quiet (extract_topics E i).
Proof.
  unfold extract_topics. destruct (nlp E) as [f|].
  - destruct (f (text i)) as [doc|e] eqn:Hf.
    + quiet_ok. reflexivity.
    + quiet_raise_logged.
  - quiet_raise_silent.
Qed.

Lemma analyze_sentiment_quiet i : quiet (analyze_sentiment E i).
Proof.
  unfold analyze_sentiment. destruct (sia E) as [f|].
  - destruct (f (text i)) as [sc|e] eqn:Hf.
    + quiet_ok. reflexivity.
    + quiet_raise_logged.
  - quiet_raise_silent.
Qed.

Lemma detect_ambiguities_quiet i : quiet (detect_ambiguities E i).
Proof. unfold detect_ambiguities. quiet_ok. reflexivity. Qed.

Lemma extract_timeline_events_quiet i : quiet (extract_timeline_events E i).
Proof.
  unfold extract_timeline_events. destruct (nlp E) as [f|].
  - destruct (f (text i)) as [doc|e] eqn:Hf.
    + destruct (sent_tokenize E (text i)) as [ss|e] eqn:Hs.
      * quiet_ok. reflexivity.
      * quiet_raise_logged.
    + quiet_raise_logged.
  - quiet_raise_silent.
Qed.

Lemma extract_key_phrases_quiet i : quiet (extract_key_phrases E i).
Proof.
  unfold extract_key_phrases. destruct (nlp E) as [f|].
  - destruct (f (text i)) as [doc|e] eqn:Hf.
    + quiet_ok. reflexivity.
    + quiet_raise_logged.
  - quiet_raise_silent.
Qed.

Lemma calculate_readability_score_quiet t : quiet (calculate_readability_score E t).
Proof.
  unfold calculate_readability_score.
  destruct (String.eqb (strip t) "").
  { quiet_ok. reflexivity. }
  destruct (sent_tokenize E t) as [ss|e] eqn:Hs.
  2: { quiet_raise_silent. }
  destruct (word_tokenize E t) as [ws|e] eqn:Hw.
  2: { quiet_raise_silent. }
  destruct ((Z.of_nat (length ss) =? 0)%Z || (Z.of_nat (length ws) =? 0)%Z) eqn:Hz.
  - quiet_ok. rewrite Hz. reflexivity.
  - quiet_ok. rewrite Hz. reflexivity.
Qed.

Lemma detect_language_quiet t : quiet (detect_language t).
Proof. quiet_ok. reflexivity. Qed.

End StageFacts.

(** Reduce the record updates and projections of a world, and nothing else. *)
Ltac norm_world :=
  cbv beta iota zeta delta
      [record_event with_now with_trace with_logs with_db add_logs
       now redis_up redis_db logs trace].

Ltac norm_out :=
  cbv beta iota zeta delta
      [fst snd andb assembled_world record_event with_now with_trace with_logs with_db
       add_logs now redis_up redis_db logs trace].

Section Aggregate.

Variable E : Env.

Lemma now_add_logs msgs w : now (add_logs msgs w) = now w.
Proof. apply add_logs_fields. Qed.

Lemma stage_ok {A} (s : Stage) (m : M A) a w :
  m w = (Ok a, w) ->
  stage E s m w = (Ok a, record_event (EvStage s) (with_now (now w + duration E s) w)).
Proof. intros H. unfold stage. rewrite H. reflexivity. Qed.

Lemma stage_raise {A} (s : Stage) (m : M A) e msgs w :
  m w = (Raise e, add_logs msgs w) ->
  stage E s m w =
    (Raise e, record_event (EvStage s)
                (with_now (now w + duration E s) (add_logs msgs w))).
Proof. intros H. unfold stage. rewrite H. rewrite now_add_logs. reflexivity. Qed.

Ltac enter_analyze :=
  unfold analyze_text, bind, try_except, datetime_now; cbv beta iota zeta; norm_world.

Ltac stage_returns s H :=
  rewrite (stage_ok s _ _ _ (H _)); cbv beta iota zeta; norm_world.

Ltac stage_fails s H :=
  rewrite (stage_raise s _ _ _ _ (H _)); cbv beta iota zeta;
  unfold logger_error, raise; cbv beta iota zeta; norm_world.

Ltac show_failed :=
  unfold failed_request; cbn [fst snd]; norm_world;
  split; [reflexivity|];
  split; [reflexivity|];
  split; [reflexivity|];
  split;
  [ eexists; split; [repeat rewrite <- app_assoc; reflexivity | reflexivity]
  | apply in_or_app; right; left; reflexivity ].

(** [/analyze] goes one of two ways.  Either the eight stages return
    and the request ends in the cache step, or some stage raises and the
    request fails without having touched the cache. *)
Lemma analyze_text_cases i :
  (exists en to se am tl kp rs la,
      (forall w, extract_entities E i w = (Ok en, w)) /\
      (forall w, extract_topics E i w = (Ok to, w)) /\
      (forall w, analyze_sentiment E i w = (Ok se, w)) /\
      (forall w, detect_ambiguities E i w = (Ok am, w)) /\
      (forall w, extract_timeline_events E i w = (Ok tl, w)) /\
      (forall w, extract_key_phrases E i w = (Ok kp, w)) /\
      (forall w, calculate_readability_score E (text i) w = (Ok rs, w)) /\
      (forall w, detect_language (text i) w = (Ok la, w)) /\
      forall w,
        analyze_text E i w =
        cache_step E i
          (mkNLPAnalysisResult en to se am tl kp la rs
             (total_seconds (clock_after E timed_stages (now w) - now w)))
          (assembled_world E w))
  \/
  (exists s e,
      (forall w, stage_outcome E s i w = Raise e) /\
      forall w, failed_request E e w (analyze_text E i w)).
Proof.
  destruct (extract_entities_quiet E i) as [[en Hen]|(e & msgs & Hen)].
  2: { right. exists Entities, e. split.
       { intros w. unfold stage_outcome. rewrite Hen. reflexivity. }
       intros [t up db lg tr]. enter_analyze. stage_fails Entities Hen. show_failed. }
  destruct (extract_topics_quiet E i) as [[to Hto]|(e & msgs & Hto)].
  2: { right. exists Topics, e. split.
       { intros w. unfold stage_outcome. rewrite Hto. reflexivity. }
       intros [t up db lg tr]. enter_analyze. stage_returns Entities Hen.
       stage_fails Topics Hto. show_failed. }
  destruct (analyze_sentiment_quiet E i) as [[se Hse]|(e & msgs & Hse)].
  2: { right. exists Sentiment, e. split.
       { intros w. unfold stage_outcome. rewrite Hse. reflexivity. }
       intros [t up db lg tr]. enter_analyze. stage_returns Entities Hen.
       stage_returns Topics Hto. stage_fails Sentiment Hse. show_failed. }
  destruct (detect_ambiguities_quiet E i) as [[am Ham]|(e & msgs & Ham)].
  2: { right. exists Ambiguities, e. split.
       { intros w. unfold stage_outcome. rewrite Ham. reflexivity. }
       intros [t up db lg tr]. enter_analyze. stage_returns Entities Hen.
       stage_returns Topics Hto. stage_returns Sentiment Hse.
       stage_fails Ambiguities Ham. show_failed. }
  destruct (extract_timeline_events_quiet E i) as [[tl Htl]|(e & msgs & Htl)].
  2: { right. exists Timeline, e. split.
       { intros w. unfold stage_outcome. rewrite Htl. reflexivity. }
       intros [t up db lg tr]. enter_analyze. stage_returns Entities Hen.
       stage_returns Topics Hto. stage_returns Sentiment Hse.
       stage_returns Ambiguities Ham. stage_fails Timeline Htl. show_failed. }
  destruct (extract_key_phrases_quiet E i) as [[kp Hkp]|(e & msgs & Hkp)].
  2: { right. exists KeyPhrases, e. split.
       { intros w. unfold stage_outcome. rewrite Hkp. reflexivity. }
       intros [t up db lg tr]. enter_analyze. stage_returns Entities Hen.
       stage_returns Topics Hto. stage_returns Sentiment Hse.
       stage_returns Ambiguities Ham. stage_returns Timeline Htl.
       stage_fails KeyPhrases Hkp. show_failed. }
  destruct (calculate_readability_score_quiet E (text i)) as [[rs Hrs]|(e & msgs & Hrs)].
  2: { right. exists Readability, e. split.
       { intros w. unfold stage_outcome. rewrite Hrs. reflexivity. }
       intros [t up db lg tr]. enter_analyze. stage_returns Entities Hen.
       stage_returns Topics Hto. stage_returns Sentiment Hse.
       stage_returns Ambiguities Ham. stage_returns Timeline Htl.
       stage_returns KeyPhrases Hkp. stage_fails Readability Hrs. show_failed. }
  destruct (detect_language_quiet (text i)) as [[la Hla]|(e & msgs & Hla)].
  2: { right. exists Language, e. split.
       { intros w. unfold stage_outcome. rewrite Hla. reflexivity. }
       intros [t up db lg tr]. enter_analyze. stage_returns Entities Hen.
       stage_returns Topics Hto. stage_returns Sentiment Hse.
       stage_returns Ambiguities Ham. stage_returns Timeline Htl.
       stage_returns KeyPhrases Hkp. stage_returns Readability Hrs.
       stage_fails Language Hla. show_failed. }
  left. exists en, to, se, am, tl, kp, rs, la.
  repeat (split; [assumption|]).
  intros [t up db lg tr]. enter_analyze. stage_returns Entities Hen.
  stage_returns Topics Hto. stage_returns Sentiment Hse.
  stage_returns Ambiguities Ham. stage_returns Timeline Htl.
  stage_returns KeyPhrases Hkp. stage_returns Readability Hrs.
  stage_returns Language Hla.
  unfold cache_step, assembled_world, clock_after.
  cbn [fold_left timed_stages untimed_stages map]. norm_world.
  repeat rewrite <- app_assoc. cbn [app].
  destruct (redis_client E && truthy (session_id i)).
  - unfold setex. cbv beta iota zeta. norm_world. destruct up.
    + unfold ret. cbv beta iota zeta. norm_world.
      repeat rewrite <- app_assoc. reflexivity.
    + unfold logger_error, raise. cbv beta iota zeta. norm_world.
      repeat rewrite <- app_assoc. reflexivity.
  - unfold ret. reflexivity.
Qed.

End Aggregate.

(* ===================================================================== *)
(** ** The combined analysis: failures, the cache and the clock *)
(* ===================================================================== *)

Section AggregateFacts.

Variable E : Env.

Lemma clock_after_total l t : clock_after E l t = t + total_duration E l.
Proof.
  unfold clock_after. revert t. induction l as [|s l IH]; intros t; simpl.
  - lia.
  - rewrite IH. lia.
Qed.

Lemma returning_stage_does_not_raise {A} (m : M A) a s i w :
  (forall w, m w = (Ok a, w)) ->
  stage_outcome E s i w = forget (fst (m w)) ->
  ~ stage_raises E s i w.
Proof.
  intros Hm Hs [e He]. rewrite Hs, Hm in He. discriminate.
Qed.

(** When no stage raises, the request reaches the cache step with the
    assembled result. *)
Lemma analyze_text_assembles i w0 :
  (forall s, ~ stage_raises E s i w0) ->
  exists en to se am tl kp rs la,
    forall w,
      analyze_text E i w =
      cache_step E i
        (mkNLPAnalysisResult en to se am tl kp la rs
           (total_seconds (clock_after E timed_stages (now w) - now w)))
        (assembled_world E w).
Proof.
  intros Hno.
  destruct (analyze_text_cases E i)
    as [(en & to & se & am & tl & kp & rs & la & _ & _ & _ & _ & _ & _ & _ & _ & H)
       |(s & e & Hs & _)].
  - exists en, to, se, am, tl, kp, rs, la. exact H.
  - exfalso. apply (Hno s). exists e. apply Hs.
Qed.

(** When some stage raises, the request fails and the cache is left alone. *)
Lemma analyze_text_aborts i w0 s :
  stage_raises E s i w0 ->
  exists e, forall w, failed_request E e w (analyze_text E i w).
Proof.
  intros Hs.
  destruct (analyze_text_cases E i)
    as [(en & to & se & am & tl & kp & rs & la
         & Hen & Hto & Hse & Ham & Htl & Hkp & Hrs & Hla & _)
       |(s' & e & _ & H)].
  - exfalso. revert Hs. destruct s.
    + apply (returning_stage_does_not_raise _ _ _ _ _ Hen). reflexivity.
    + apply (returning_stage_does_not_raise _ _ _ _ _ Hto). reflexivity.
    + apply (returning_stage_does_not_raise _ _ _ _ _ Hse). reflexivity.
    + apply (returning_stage_does_not_raise _ _ _ _ _ Ham). reflexivity.
    + apply (returning_stage_does_not_raise _ _ _ _ _ Htl). reflexivity.
    + apply (returning_stage_does_not_raise _ _ _ _ _ Hkp). reflexivity.
    + apply (returning_stage_does_not_raise _ _ _ _ _ Hrs). reflexivity.
    + apply (returning_stage_does_not_raise _ _ _ _ _ Hla). reflexivity.
  - exists e. exact H.
Qed.

End AggregateFacts.

(** C5.  Whenever a stage of [/analyze] raises, the request ends in the
    single generic failure (status 500, [NLP analysis failed]): no
    result is returned, the Redis store is what it was before the
    request, and the request made no [setex] call. *)
Theorem analyze_text_stage_failure (E : Env) (i : TextInput) (w : World) (s : Stage) :
  stage_raises E s i w ->
  fst (analyze_text E i w) = Raise (HTTPException 500 "NLP analysis failed") /\
  (forall r, fst (analyze_text E i w) <> Ok r) /\
  redis_db (snd (analyze_text E i w)) = redis_db w /\
  forallb (fun ev => negb (is_setex ev)) (events_of E i w) = true.
Proof.
  intros Hs.
  destruct (analyze_text_aborts E i w s Hs) as [e H].
  destruct (H w) as (Hout & Hdb & _ & (evs & Htr & Hevs) & _).
  split; [exact Hout|].
  split; [intros r Hr; rewrite Hout in Hr; discriminate|].
  split; [exact Hdb|].
  unfold events_of. rewrite Htr.
  rewrite drop_app_length. exact Hevs.
Qed.

Lemma analyze_text_stage_failure_witness :
  stage_raises Demo.env Entities boom_request (Demo.world true) /\
  fst (analyze_text Demo.env boom_request (Demo.world true))
    = Raise (HTTPException 500 "NLP analysis failed") /\
  redis_db (snd (analyze_text Demo.env boom_request (Demo.world true))) = ∅.
Proof.
  assert (Hs : stage_raises Demo.env Entities boom_request (Demo.world true)).
  { eexists. vm_compute. reflexivity. }
  split; [exact Hs|].
  destruct (analyze_text_stage_failure Demo.env boom_request (Demo.world true) Entities Hs)
    as (H1 & _ & H2 & _).
  split; [exact H1 | exact H2].
Defined.

(** *** The cache write *)

Lemma demo_no_stage_raises (i : TextInput) (w : World) :
  text i = met_text ->
  forall s, ~ stage_raises Demo.env s i w.
Proof.
  intros Ht s [e He]. destruct i as [t sid tn]. simpl in Ht. subst t.
  destruct s; vm_compute in He; discriminate.
Qed.

(** C1, as the specification states it, fails: the client is present,
    the session id is present, every stage returns, the server does not
    answer, and the request fails. *)
Lemma cache_failure_not_swallowed :
  redis_client Demo.env = true /\
  truthy (session_id cached_request) = true /\
  (forall s, ~ stage_raises Demo.env s cached_request (Demo.world false)) /\
  redis_up (Demo.world false) = false /\
  ~ cache_failure_swallowed Demo.env cached_request (Demo.world false).
Proof.
  split; [reflexivity|]. split; [reflexivity|].
  split; [apply demo_no_stage_raises; reflexivity|].
  split; [reflexivity|].
  intros [r Hr]. vm_compute in Hr. discriminate.
Qed.

(** C1, amended.  When the client is present, the session id is present
    and every stage returns, a [setex] that raises is caught by the
    handler of [/analyze] like any other exception: it is logged, the
    request fails with the generic failure (status 500), no result is
    returned and the store keeps its contents. *)
Theorem analyze_text_cache_failure (E : Env) (i : TextInput) (w : World) :
  redis_client E = true ->
  truthy (session_id i) = true ->
  (forall s, ~ stage_raises E s i w) ->
  redis_up w = false ->
  fst (analyze_text E i w) = Raise (HTTPException 500 "NLP analysis failed") /\
  In (EvSetex (cache_key i)) (events_of E i w) /\
  logs (snd (analyze_text E i w)) =
    logs w ++ ["Complete NLP analysis failed: " +++ str_of_exn E redis_error] /\
  redis_db (snd (analyze_text E i w)) = redis_db w.
Proof.
  intros Hc Hs Hno Hup.
  destruct (analyze_text_assembles E i w Hno)
    as (en & to & se & am & tl & kp & rs & la & H).
  unfold events_of. rewrite H. unfold cache_step.
  change (redis_up (assembled_world E w)) with (redis_up w).
  rewrite Hc, Hs, Hup. destruct w as [t up db lg tr]. norm_out.
  split; [reflexivity|].
  split.
  - rewrite <- app_assoc. rewrite drop_app_length.
    apply in_or_app. right. left. reflexivity.
  - split; reflexivity.
Qed.

Lemma analyze_text_cache_failure_witness :
  fst (analyze_text Demo.env cached_request (Demo.world false))
    = Raise (HTTPException 500 "NLP analysis failed").
Proof.
  exact (proj1 (analyze_text_cache_failure
                  Demo.env cached_request (Demo.world false) eq_refl eq_refl
                  (demo_no_stage_raises cached_request (Demo.world false) eq_refl)
                  eq_refl)).
Defined.

(** When the start-up ping failed there is no client, the cache step is
    skipped and the request returns its result. *)
Lemma analyze_text_without_client (E : Env) (i : TextInput) (w : World) :
  redis_client E = false ->
  (forall s, ~ stage_raises E s i w) ->
  (exists r, fst (analyze_text E i w) = Ok r) /\
  snd (analyze_text E i w) = assembled_world E w.
Proof.
  intros Hc Hno.
  destruct (analyze_text_assembles E i w Hno)
    as (en & to & se & am & tl & kp & rs & la & H).
  rewrite H. unfold cache_step. rewrite Hc. cbn [andb fst snd]. eauto.
Qed.

(** *** The cache key *)

Lemma append_inj_l (a b c : string) : a +++ b = a +++ c -> b = c.
Proof.
  induction a as [|x a IH]; intros H; [exact H|].
  change (String x (a +++ b) = String x (a +++ c)) in H. inversion H; auto.
Qed.

Lemma none_key_is_not_first_turn_key (i : TextInput) (sid : string) :
  session_id i = Some sid -> turn_number i = None ->
  cache_key i <> first_turn_key sid.
Proof.
  intros Hs Ht H. unfold cache_key, first_turn_key in H. rewrite Hs, Ht in H.
  cbn [format_opt_str format_opt_int] in H.
  apply append_inj_l in H. apply append_inj_l in H. discriminate H.
Qed.

(** C2, as the specification states it, fails: with session [s1], no
    turn number, the client present and the server up, nothing is
    stored under [nlp_analysis:s1:1]. *)
Lemma turnless_request_not_under_first_turn :
  redis_client Demo.env = true /\
  redis_up (Demo.world true) = true /\
  turn_number turnless_request = None /\
  (exists r, fst (analyze_text Demo.env turnless_request (Demo.world true)) = Ok r) /\
  map_to_list (redis_db (snd (analyze_text Demo.env turnless_request (Demo.world true))))
    = [("nlp_analysis:s1:None", (3600, "json(en)"))] /\
  ~ stored_under_first_turn Demo.env turnless_request (Demo.world true).
Proof.
  split; [reflexivity|]. split; [reflexivity|]. split; [reflexivity|].
  split; [eexists; vm_compute; reflexivity|].
  split; [vm_compute; reflexivity|].
  intros (sid & v & Hsid & Hv). inversion Hsid; subst sid.
  vm_compute in Hv. discriminate.
Qed.

(** C2, amended.  With a session id present, the client present, the
    server up and no turn number in the input, the serialized result is
    stored, with an expiry of 3600 seconds, under the key that ends in
    the text [None], [nlp_analysis:<session_id>:None]; the key of turn 1
    is left as it was. *)
Theorem analyze_text_turnless_key (E : Env) (i : TextInput) (w : World) (sid : string) :
  session_id i = Some sid ->
  truthy (session_id i) = true ->
  turn_number i = None ->
  redis_client E = true ->
  redis_up w = true ->
  (forall s, ~ stage_raises E s i w) ->
  exists r,
    fst (analyze_text E i w) = Ok r /\
    cache_key i = "nlp_analysis:" +++ sid +++ ":None" /\
    redis_db (snd (analyze_text E i w)) =
      <["nlp_analysis:" +++ sid +++ ":None" := (3600, json_dumps E r)]> (redis_db w) /\
    redis_db (snd (analyze_text E i w)) !! first_turn_key sid
      = redis_db w !! first_turn_key sid.
Proof.
  intros Hsid Htr Htn Hc Hup Hno.
  destruct (analyze_text_assembles E i w Hno)
    as (en & to & se & am & tl & kp & rs & la & H).
  rewrite H. unfold cache_step.
  change (redis_up (assembled_world E w)) with (redis_up w).
  rewrite Hc, Htr, Hup. destruct w as [t up db lg tr]. norm_out.
  assert (Hk : cache_key i = "nlp_analysis:" +++ sid +++ ":None").
  { unfold cache_key. rewrite Hsid, Htn. reflexivity. }
  eexists. split; [reflexivity|]. split; [exact Hk|].
  rewrite Hk. split; [reflexivity|].
  apply lookup_insert_ne.
  rewrite <- Hk. apply none_key_is_not_first_turn_key; assumption.
Qed.

Lemma analyze_text_turnless_key_witness :
  exists r,
    fst (analyze_text Demo.env turnless_request (Demo.world true)) = Ok r /\
    cache_key turnless_request = "nlp_analysis:s1:None".
Proof.
  destruct (analyze_text_turnless_key Demo.env turnless_request (Demo.world true) "s1")
    as (r & H1 & H2 & _).
  - reflexivity.
  - reflexivity.
  - reflexivity.
  - reflexivity.
  - reflexivity.
  - apply demo_no_stage_raises. reflexivity.
  - exists r. split; [exact H1 | exact H2].
Defined.

(** With a turn number the key ends in its decimal notation. *)
Lemma cache_key_with_turn (sid : string) (n : Z) (t : string) :
  cache_key (mkTextInput t (Some sid) (Some n))
  = "nlp_analysis:" +++ sid +++ ":" +++ str_of_int n.
Proof. reflexivity. Qed.

(** *** A capability that failed to load *)

(** C3, as the specification states it, fails on the combined route:
    without the spaCy model [/analyze] answers with status 500. *)
Lemma analyze_without_nlp_is_not_503 :
  depends_on RouteAnalyze SpaCy = true /\
  unavailable Demo.env_no_nlp SpaCy /\
  respond Demo.env_no_nlp RouteAnalyze cached_request (Demo.world true)
    = Raise (HTTPException 500 "NLP analysis failed") /\
  ~ service_unavailable Demo.env_no_nlp RouteAnalyze cached_request (Demo.world true).
Proof.
  split; [reflexivity|]. split; [reflexivity|]. split; [vm_compute; reflexivity|].
  intros [d H]. vm_compute in H. discriminate.
Qed.

(** C3, amended.  A route that depends on a capability that failed to
    initialize fails: each of the five single-analyzer routes with the
    service-unavailable response (status 503), and [/analyze], whose
    handler catches the 503 of the stage it calls, with the generic
    processing failure (status 500). *)
Theorem missing_capability_response (E : Env) (r : Route) (c : Capability)
        (i : TextInput) (w : World) :
  depends_on r c = true ->
  unavailable E c ->
  respond E r i w =
    match r with
    | RouteAnalyze => Raise (HTTPException 500 "NLP analysis failed")
    | _ => Raise (HTTPException 503 (unavailable_detail c))
    end.
Proof.
  intros Hd Hu.
  destruct r, c; try discriminate Hd; simpl in Hu; unfold respond.
  - unfold extract_entities. rewrite Hu. reflexivity.
  - unfold extract_topics. rewrite Hu. reflexivity.
  - unfold analyze_sentiment. rewrite Hu. reflexivity.
  - unfold extract_timeline_events. rewrite Hu. reflexivity.
  - unfold extract_key_phrases. rewrite Hu. reflexivity.
  - assert (Hs : stage_raises E Entities i w).
    { eexists. unfold stage_outcome, extract_entities. rewrite Hu. reflexivity. }
    destruct (analyze_text_aborts E i w Entities Hs) as [e H].
    destruct (H w) as (Hout & _). rewrite Hout. reflexivity.
  - assert (Hs : stage_raises E Sentiment i w).
    { eexists. unfold stage_outcome, analyze_sentiment. rewrite Hu. reflexivity. }
    destruct (analyze_text_aborts E i w Sentiment Hs) as [e H].
    destruct (H w) as (Hout & _). rewrite Hout. reflexivity.
Qed.

Lemma missing_capability_response_witness :
  respond Demo.env_no_nlp RouteEntities cached_request (Demo.world true)
    = Raise (HTTPException 503 "SpaCy model not available") /\
  respond Demo.env_no_sia RouteSentiment cached_request (Demo.world true)
    = Raise (HTTPException 503 "NLTK sentiment analyzer not available") /\
  respond Demo.env_no_sia RouteAnalyze cached_request (Demo.world true)
    = Raise (HTTPException 500 "NLP analysis failed").
Proof.
  split; [|split].
  - exact (missing_capability_response Demo.env_no_nlp RouteEntities SpaCy
             cached_request (Demo.world true) eq_refl eq_refl).
  - exact (missing_capability_response Demo.env_no_sia RouteSentiment Vader
             cached_request (Demo.world true) eq_refl eq_refl).
  - exact (missing_capability_response Demo.env_no_sia RouteAnalyze Vader
             cached_request (Demo.world true) eq_refl eq_refl).
Defined.

(** [/health] reports which handles are missing. *)
Lemma health_check_reports (E : Env) (w : World) :
  fst (health_check E w) =
    Ok ("healthy", "nlp-service",
        (bool_decide (is_Some (nlp E)), bool_decide (is_Some (sia E)), redis_client E)).
Proof. reflexivity. Qed.

(** *** The measured interval *)

(** C4, as the specification states it, fails: the request succeeds and
    the readability stage runs after the last reading of the clock; the
    reported time is that of the first six stages, 3350 microseconds of
    the 3471 that the eight stages take. *)
Lemma readability_is_not_measured :
  (exists r, fst (analyze_text Demo.env cached_request (Demo.world true)) = Ok r /\
             processing_time r = total_seconds 3350) /\
  total_duration Demo.env all_stages = 3471 /\
  ran Readability (until_last_now (events_of Demo.env cached_request (Demo.world true)))
    = false /\
  ran Readability (after_last_now (events_of Demo.env cached_request (Demo.world true)))
    = true /\
  ~ measures_all_stages Demo.env cached_request (Demo.world true).
Proof.
  split; [eexists; split; vm_compute; reflexivity|].
  split; [reflexivity|].
  split; [vm_compute; reflexivity|].
  split; [vm_compute; reflexivity|].
  intros H. specialize (H Readability). vm_compute in H. discriminate.
Qed.

(** C4, amended.  For every [/analyze] request that succeeds, the
    reported [processing_time] is the time of the first six stages
    (entities, topics, sentiment, ambiguities, timeline, key phrases):
    the clock is read for the second and last time when they have run,
    and the readability score and the language detection are computed
    after that reading, followed only by the cache write. *)
Theorem analyze_text_measured_interval (E : Env) (i : TextInput) (w : World)
        (r : NLPAnalysisResult) :
  fst (analyze_text E i w) = Ok r ->
  until_last_now (events_of E i w) =
    EvNow (now w) :: map EvStage timed_stages
      ++ [EvNow (now w + total_duration E timed_stages)] /\
  (exists writes,
      after_last_now (events_of E i w) = map EvStage untimed_stages ++ writes /\
      forallb is_setex writes = true) /\
  processing_time r = total_seconds (total_duration E timed_stages).
Proof.
  intros Hok.
  destruct (analyze_text_cases E i)
    as [(en & to & se & am & tl & kp & rs & la & _ & _ & _ & _ & _ & _ & _ & _ & H)
       |(s & e & _ & H)].
  2: { destruct (H w) as (Hout & _). rewrite Hout in Hok. discriminate. }
  assert (Hd : clock_after E timed_stages (now w) - now w = total_duration E timed_stages).
  { rewrite clock_after_total. lia. }
  assert (Ht : clock_after E timed_stages (now w) = now w + total_duration E timed_stages).
  { apply clock_after_total. }
  unfold events_of, after_last_now. rewrite H in Hok |- *. unfold cache_step in *.
  rewrite Hd in *.
  change (redis_up (assembled_world E w)) with (redis_up w) in *.
  destruct w as [t up db lg tr]. cbn [now redis_up] in *.
  destruct (redis_client E && truthy (session_id i)).
  - destruct up; cbn [fst] in Hok; [|discriminate].
    inversion Hok; subst r; clear Hok. norm_out.
    rewrite <- app_assoc, drop_app_length. rewrite Ht.
    cbn [timed_stages untimed_stages map app until_last_now existsb is_now orb length skipn].
    repeat split. exists [EvSetex (cache_key i)]. split; reflexivity.
  - cbn [fst] in Hok. inversion Hok; subst r; clear Hok. norm_out.
    rewrite drop_app_length. rewrite Ht.
    cbn [timed_stages untimed_stages map app until_last_now existsb is_now orb length skipn].
    repeat split. exists []. split; reflexivity.
Qed.

Lemma analyze_text_measured_interval_witness :
  exists r,
    fst (analyze_text Demo.env cached_request (Demo.world true)) = Ok r /\
    processing_time r = total_seconds 3350.
Proof.
  assert (H : exists r, fst (analyze_text Demo.env cached_request (Demo.world true)) = Ok r).
  { eexists. vm_compute. reflexivity. }
  destruct H as [r Hr]. exists r. split; [exact Hr|].
  destruct (analyze_text_measured_interval Demo.env cached_request (Demo.world true) r Hr)
    as (_ & _ & Hp).
  exact Hp.
Defined.

(* ===================================================================== *)
(** ** The timeline extractor *)
(* ===================================================================== *)

Section StringFacts.

Lemma append_cons (c : ascii) (a b : string) : String c a +++ b = String c (a +++ b).
Proof. reflexivity. Qed.


Lemma startswith_spec (p s : string) :
  startswith p s = true <-> exists b, s = p +++ b.
Proof.
  revert s. induction p as [|a p IH]; intros s; simpl.
  - split; [intros _; exists s; reflexivity | reflexivity].
  - destruct s as [|c s].
    + split; [discriminate | intros [b Hb]; rewrite append_cons in Hb; discriminate].
    + rewrite andb_true_iff, IH. split.
      * intros [Hac [b Hb]]. apply Ascii.eqb_eq in Hac. subst. exists b. reflexivity.
      * intros [b Hb]. rewrite append_cons in Hb. inversion Hb; subst. split.
        -- apply Ascii.eqb_refl.
        -- exists b. reflexivity.
Qed.

Lemma contains_spec (p s : string) :
  contains p s = true <-> exists a b, s = a +++ p +++ b.
Proof.
  induction s as [|c s IH].
  - simpl. rewrite orb_false_r, startswith_spec. split.
    + intros [b Hb]. exists EmptyString, b. exact Hb.
    + intros (a & b & H). destruct a; [exists b; exact H|].
      rewrite append_cons in H. discriminate.
  - simpl. rewrite orb_true_iff, startswith_spec, IH. split.
    + intros [[b Hb] | (a & b & H)].
      * exists EmptyString, b. exact Hb.
      * exists (String c a), b. rewrite append_cons, H. reflexivity.
    + intros (a & b & H). destruct a as [|x a].
      * left. exists b. exact H.
      * right. rewrite append_cons in H. inversion H; subst. exists a, b. reflexivity.
Qed.

Lemma fold_left_snoc {A B} (f : A -> B) (l : list A) (acc : list B) :
  fold_left (fun acc x => acc ++ [f x]) l acc = acc ++ map f l.
Proof.
  revert acc. induction l as [|x l IH]; intros acc; simpl.
  - rewrite app_nil_r. reflexivity.
  - rewrite IH, <- app_assoc. reflexivity.
Qed.

End StringFacts.

Section TimelineFacts.

Lemma scan_keywords_find (sentence sl : string) (kws : list string)
      (events : list TimelineEvent) :
  scan_keywords sentence sl kws events =
    events ++ match find (fun keyword => contains keyword sl) kws with
              | Some keyword => [keyword_event sentence keyword]
              | None => []
              end.
Proof.
  induction kws as [|k kws IH]; simpl.
  - rewrite app_nil_r. reflexivity.
  - destruct (contains k sl); [reflexivity | exact IH].
Qed.

Lemma scan_sentences_flat (sentences : list string) (events : list TimelineEvent) :
  scan_sentences sentences events = events ++ flat_map sentence_events sentences.
Proof.
  unfold scan_sentences. revert events.
  induction sentences as [|s ss IH]; intros events; cbn [fold_left flat_map].
  - rewrite app_nil_r. reflexivity.
  - rewrite IH, scan_keywords_find, <- app_assoc. reflexivity.
Qed.

Lemma sentence_events_at_most_one (sentence : string) :
  (length (sentence_events sentence) <= 1)%nat.
Proof. unfold sentence_events. destruct (first_keyword sentence); simpl; lia. Qed.

Lemma sentence_events_are_keyword (sentences : list string) :
  keyword_events (flat_map sentence_events sentences) = flat_map sentence_events sentences.
Proof.
  unfold keyword_events.
  induction sentences as [|s ss IH]; cbn [flat_map]; [reflexivity|].
  rewrite List.filter_app, IH. f_equal.
  unfold sentence_events. destruct (first_keyword s); reflexivity.
Qed.

Lemma entity_events_are_not_keyword (l : list Span) :
  keyword_events
    (map entity_event (List.filter (fun ent => mem (label_ ent) time_labels) l)) = [].
Proof.
  unfold keyword_events.
  induction l as [|ent l IH]; cbn [List.filter map]; [reflexivity|].
  destruct (mem (label_ ent) time_labels) eqn:Hm; [|exact IH].
  cbn [List.filter map]. rewrite IH.
  assert (Hk : is_keyword_event (entity_event ent) = false).
  { unfold mem, time_labels in Hm. cbn [existsb] in Hm.
    unfold is_keyword_event, entity_event. cbn [reference].
    repeat rewrite orb_true_iff in Hm.
    destruct Hm as [H|[H|[H|H]]]; try discriminate H;
      apply String.eqb_eq in H; rewrite H; reflexivity. }
  rewrite Hk. reflexivity.
Qed.

(** What [/timeline] returns when the pipeline and the tokenizer return:
    the entity-derived events, then the keyword-derived events sentence
    by sentence. *)
Lemma extract_timeline_events_returns (E : Env) f (i : TextInput) (w : World)
      (doc : Doc) (ss : list string) :
  nlp E = Some f -> f (text i) = Ok doc -> sent_tokenize E (text i) = Ok ss ->
  extract_timeline_events E i w =
    (Ok (map entity_event
             (List.filter (fun ent => mem (label_ ent) time_labels) (ents doc))
         ++ flat_map sentence_events ss), w).
Proof.
  intros Hn Hf Hs. unfold extract_timeline_events. rewrite Hn.
  unfold try_except, bind, call, ret. rewrite Hf, Hs.
  rewrite scan_sentences_flat, fold_left_snoc. reflexivity.
Qed.

End TimelineFacts.

(** C6, as the specification states it, fails: [met_text] ends in its
    only full stop, the tokenizer returns it as one sentence, and the
    scan stops at [yesterday], the first keyword of the list that the
    sentence contains. *)
Lemma met_text_has_one_keyword_event :
  sent_tokenize Demo.env met_text = Ok [met_text] /\
  (exists evs,
      fst (extract_timeline_events Demo.env met_request (Demo.world true)) = Ok evs /\
      map reference (keyword_events evs) = ["temporal_keyword_yesterday"] /\
      ~ two_keyword_events evs).
Proof.
  split; [reflexivity|].
  eexists. split; [vm_compute; reflexivity|].
  split; [vm_compute; reflexivity|].
  unfold two_keyword_events. vm_compute. discriminate.
Qed.

(** C6, amended.  The keyword-derived events of a text are those of its
    sentences, in order, and a sentence never has two of them.  For
    [met_text], which the tokenizer returns as a single sentence, there
    is exactly one keyword-derived event: its text is the sentence, its
    reference is [temporal_keyword_yesterday] (the first keyword of the
    list found in the sentence; [next week] is not looked for any more)
    and its confidence is 0.6. *)
Theorem timeline_keyword_events (E : Env) (f : string -> outcome Doc) (i : TextInput)
        (w : World) (doc : Doc) (ss : list string) :
  nlp E = Some f ->
  f (text i) = Ok doc ->
  sent_tokenize E (text i) = Ok ss ->
  exists evs,
    extract_timeline_events E i w = (Ok evs, w) /\
    keyword_events evs = flat_map sentence_events ss /\
    (forall sentence, (length (sentence_events sentence) <= 1)%nat) /\
    (text i = met_text -> ss = [met_text] ->
     keyword_events evs =
       [mkTimelineEvent met_text None "temporal_keyword_yesterday" 0.6%float]).
Proof.
  intros Hn Hf Hs.
  eexists. split; [apply (extract_timeline_events_returns E f i w doc ss); assumption|].
  assert (Hk : keyword_events
                 (map entity_event
                      (List.filter (fun ent => mem (label_ ent) time_labels) (ents doc))
                  ++ flat_map sentence_events ss)
               = flat_map sentence_events ss).
  { unfold keyword_events. rewrite List.filter_app.
    fold (keyword_events
            (map entity_event
                 (List.filter (fun ent => mem (label_ ent) time_labels) (ents doc)))).
    fold (keyword_events (flat_map sentence_events ss)).
    rewrite entity_events_are_not_keyword, sentence_events_are_keyword. reflexivity. }
  split; [exact Hk|].
  split; [apply sentence_events_at_most_one|].
  intros _ Hss. rewrite Hk, Hss. vm_compute. reflexivity.
Qed.

Lemma timeline_keyword_events_witness :
  exists evs,
    extract_timeline_events Demo.env met_request (Demo.world true)
      = (Ok evs, Demo.world true) /\
    keyword_events evs =
      [mkTimelineEvent met_text None "temporal_keyword_yesterday" 0.6%float].
Proof.
  destruct (timeline_keyword_events Demo.env Demo.pipeline met_request (Demo.world true)
              (mkDoc [mkSpan "yesterday" "DATE" 7 16; mkSpan "next week" "DATE" 46 55]
                     ["We"; "I"; "we"])
              [met_text] eq_refl eq_refl eq_refl)
    as (evs & H1 & _ & _ & H2).
  exists evs. split; [exact H1 | exact (H2 eq_refl eq_refl)].
Defined.

(** C10.  The keyword scan is a substring test on the lower-cased
    sentence: a sentence gets a keyword-derived event exactly when some
    keyword of the list occurs in it as a contiguous run of characters,
    whatever stands around the run.  The sentence [agony_text] has no
    time entity and no keyword as a word of its own ([ago] does not
    match between word boundaries), and it still gets the event with
    reference [temporal_keyword_ago]. *)
Theorem timeline_keyword_is_substring :
  (forall sentence events,
      (exists ev, scan_keywords sentence (lower sentence) temporal_keywords events
                  = events ++ [ev])
      <->
      (exists keyword a b,
          In keyword temporal_keywords /\ lower sentence = a +++ keyword +++ b)) /\
  (forall sentence events,
      scan_keywords sentence (lower sentence) temporal_keywords events
      = events ++
        match first_keyword sentence with
        | Some keyword =>
            [mkTimelineEvent (strip sentence) None
                             ("temporal_keyword_" +++ keyword) 0.6%float]
        | None => []
        end) /\
  Re.search (Re.word_pattern "ago") (lower agony_text) = false /\
  forallb (fun keyword =>
             negb (Re.search (Re.word_pattern keyword) (lower agony_text)))
          temporal_keywords = true /\
  contains "ago" (lower agony_text) = true /\
  forall w,
    extract_timeline_events Demo.env agony_request w
    = (Ok [mkTimelineEvent agony_text None "temporal_keyword_ago" 0.6%float], w).
Proof.
  split.
  { intros sentence events. rewrite scan_keywords_find. split.
    - intros [ev Hev].
      destruct (find (fun keyword => contains keyword (lower sentence)) temporal_keywords)
        as [k|] eqn:Hfind.
      + apply find_some in Hfind. destruct Hfind as [Hin Hc].
        apply contains_spec in Hc. destruct Hc as (a & b & Hab).
        exists k, a, b. split; assumption.
      + exfalso. apply (f_equal (@length _)) in Hev.
        rewrite !length_app in Hev. simpl in Hev. lia.
    - intros (k & a & b & Hin & Hab).
      destruct (find (fun keyword => contains keyword (lower sentence)) temporal_keywords)
        as [k'|] eqn:Hfind.
      + eexists. reflexivity.
      + exfalso. apply (find_none _ _ Hfind) in Hin.
        assert (Hc : contains k (lower sentence) = true).
        { apply contains_spec. exists a, b. exact Hab. }
        rewrite Hc in Hin. discriminate. }
  split.
  { intros sentence events. rewrite scan_keywords_find. reflexivity. }
  split; [vm_compute; reflexivity|].
  split; [vm_compute; reflexivity|].
  split; [vm_compute; reflexivity|].
  intros w. rewrite (extract_timeline_events_returns Demo.env Demo.pipeline agony_request w
                       (mkDoc [] []) [agony_text] eq_refl eq_refl eq_refl).
  vm_compute. reflexivity.
Qed.

Lemma timeline_keyword_is_substring_witness :
  exists ev,
    scan_keywords agony_text (lower agony_text) temporal_keywords [] = [] ++ [ev].
Proof.
  apply (proj2 (proj1 timeline_keyword_is_substring agony_text [])).
  exists "ago", "the ", "ny was real.".
  split; [vm_compute; tauto | reflexivity].
Defined.

(* ===================================================================== *)
(** ** The ambiguity detector *)
(* ===================================================================== *)

Section AmbiguityFacts.

Lemma scan_terms_filter (mk : string -> AmbiguityResult) (terms : list string)
      (text : string) (acc : list AmbiguityResult) :
  scan_terms mk terms text acc = acc ++ map mk (List.filter (present text) terms).
Proof.
  unfold scan_terms. revert acc.
  induction terms as [|t terms IH]; intros acc; cbn [fold_left List.filter].
  - rewrite app_nil_r. reflexivity.
  - rewrite IH. unfold present at 2. destruct (Re.search (Re.word_pattern t) text).
    + rewrite <- app_assoc. reflexivity.
    + reflexivity.
Qed.








End AmbiguityFacts.



Section CaseFacts.








End CaseFacts.



(* ===================================================================== *)
(** ** The sentiment label and the readability score *)
(* ===================================================================== *)

Section FloatFacts.

Local Open Scope float_scope.

Lemma ltb_leb (x y : float) : (x <? y) = true -> (x <=? y) = true.
Proof.
  rewrite ltb_spec, leb_spec. unfold SFltb, SFleb.
  destruct (SFcompare (Prim2SF x) (Prim2SF y)) as [[]|]; congruence.
Qed.

(** A score that is at least 0.05 is not at most -0.05. *)
Lemma thresholds_exclusive (c : float) :
  (0.05 <=? c) = true -> (c <=? -0.05) = false.
Proof.
  rewrite !leb_spec.
  replace (Prim2SF 0.05) with (S754_finite false 7205759403792794 (-57))
    by (vm_compute; reflexivity).
  replace (Prim2SF (-0.05)) with (S754_finite true 7205759403792794 (-57))
    by (vm_compute; reflexivity).
  destruct (Prim2SF c) as [[]|[]| |[] m e]; unfold SFleb, SFcompare; congruence.
Qed.

Lemma SFmul_comm (x y : spec_float) : SF64mul x y = SF64mul y x.
Proof.
  unfold SF64mul, SFmul.
  destruct x as [sx|sx| |sx mx ex], y as [sy|sy| |sy my ey];
    try reflexivity; try (rewrite xorb_comm; reflexivity).
  rewrite xorb_comm, Pos.mul_comm, Z.add_comm. reflexivity.
Qed.

Lemma mul_comm (x y : float) : x * y = y * x.
Proof. apply Prim2SF_inj. rewrite !mul_spec. apply SFmul_comm. Qed.

(** Python's [min(1.0, max(0.0, x))] is the clamp to [0, 1]. *)
Lemma min_max_clamp (x : float) :
  PyFloat.min 1 (PyFloat.max 0 x) = clamp x 0 1.
Proof.
  unfold PyFloat.min, PyFloat.max, clamp.
  destruct (0 <? x); [reflexivity|].
  replace (0 <? 1) with true by (vm_compute; reflexivity). reflexivity.
Qed.

Lemma clamp_range (x : float) :
  (0 <=? clamp x 0 1) = true /\ (clamp x 0 1 <=? 1) = true.
Proof.
  unfold clamp. destruct (0 <? x) eqn:H0.
  - destruct (x <? 1) eqn:H1.
    + split; apply ltb_leb; assumption.
    + split; vm_compute; reflexivity.
  - split; vm_compute; reflexivity.
Qed.

Lemma sum_len_total_chars (words : list string) : sum_len words = total_chars words.
Proof.
  unfold sum_len.
  assert (H : forall acc, fold_left (fun acc word => (acc + len word)%Z) words acc
                          = (acc + total_chars words)%Z).
  { induction words as [|x l IH]; intros acc; simpl.
    - lia.
    - rewrite IH. lia. }
  rewrite H. lia.
Qed.

End FloatFacts.

Lemma sentiment_label_cases (c : float) :
  (sentiment_label c = "positive" <-> (0.05 <=? c)%float = true) /\
  (sentiment_label c = "negative" <-> (c <=? -0.05)%float = true) /\
  (sentiment_label c = "neutral" <->
   (0.05 <=? c)%float = false /\ (c <=? -0.05)%float = false).
Proof.
  unfold sentiment_label, PyFloat.ge, PyFloat.le.
  destruct (0.05 <=? c)%float eqn:Hp.
  - rewrite (thresholds_exclusive c Hp).
    repeat split; try congruence; intros H; try discriminate H.
    destruct H as [H _]. discriminate H.
  - destruct (c <=? -0.05)%float eqn:Hn.
    + repeat split; try congruence; intros H; try discriminate H.
      destruct H as [_ H]. discriminate H.
    + repeat split; try congruence; intros H; discriminate H.
Qed.

(** C8.  [/sentiment] passes the four scores of the lexicon on as they
    are, and its label is [positive] exactly when the compound score is
    at least 0.05, [negative] exactly when it is at most -0.05 and
    [neutral] exactly when it is neither; a compound score of 0.05 is
    positive and one of -0.05 is negative. *)
Theorem sentiment_label_rule (E : Env) (f : string -> outcome Scores) (i : TextInput)
        (w : World) (sc : Scores) :
  sia E = Some f ->
  f (text i) = Ok sc ->
  exists r,
    analyze_sentiment E i w = (Ok r, w) /\
    compound r = sc_compound sc /\
    positive r = sc_pos sc /\ negative r = sc_neg sc /\ neutral r = sc_neu sc /\
    (label r = "positive" <-> (0.05 <=? compound r)%float = true) /\
    (label r = "negative" <-> (compound r <=? -0.05)%float = true) /\
    (label r = "neutral" <->
     (0.05 <=? compound r)%float = false /\ (compound r <=? -0.05)%float = false) /\
    (compound r = 0.05%float -> label r = "positive") /\
    (compound r = (-0.05)%float -> label r = "negative").
Proof.
  intros Hs Hf. eexists. split.
  { unfold analyze_sentiment. rewrite Hs. unfold try_except, bind, call, ret.
    rewrite Hf. reflexivity. }
  cbn [compound positive negative neutral label].
  destruct (sentiment_label_cases (sc_compound sc)) as (Hp & Hn & Hz).
  do 4 (split; [reflexivity|]).
  split; [exact Hp|]. split; [exact Hn|]. split; [exact Hz|].
  split; intros Hc; rewrite Hc; reflexivity.
Qed.

Lemma sentiment_label_rule_witness :
  exists r,
    analyze_sentiment Demo.env great_request (Demo.world true) = (Ok r, Demo.world true) /\
    compound r = 0.6249%float /\
    label r = "positive".
Proof.
  destruct (sentiment_label_rule Demo.env Demo.polarity great_request (Demo.world true)
              (mkScores 0.6249 0.577 0 0.423) eq_refl eq_refl)
    as (r & Hrun & Hc & _ & _ & _ & Hp & _).
  exists r. split; [exact Hrun|]. split; [exact Hc|].
  apply Hp. rewrite Hc. reflexivity.
Defined.

(** The label at the two boundaries and just inside them. *)
Example sentiment_label_boundaries :
  sentiment_label 0.05 = "positive" /\
  sentiment_label (-0.05) = "negative" /\
  sentiment_label 0.0499 = "neutral" /\
  sentiment_label (-0.0499) = "neutral" /\
  sentiment_label PrimFloat.nan = "neutral".
Proof. repeat split; reflexivity. Qed.

(** What the helper returns, case by case. *)
Lemma calculate_readability_score_returns (E : Env) (t : string) (w : World)
      (ss ws : list string) :
  sent_tokenize E t = Ok ss ->
  word_tokenize E t = Ok ws ->
  calculate_readability_score E t w =
    (Ok (if String.eqb (strip t) "" || degenerate ws ss
         then 0%float else readability_formula ws ss), w).
Proof.
  intros Hs Hw. unfold calculate_readability_score.
  destruct (String.eqb (strip t) ""); [reflexivity|].
  unfold bind, call, ret. rewrite Hs, Hw. cbn [orb].
  destruct ss as [|s ss]; [reflexivity|].
  destruct ws as [|x ws]; [reflexivity|].
  cbn [degenerate].
  replace ((Z.of_nat (length (s :: ss)) =? 0)%Z || (Z.of_nat (length (x :: ws)) =? 0)%Z)
    with false.
  2: { symmetry. apply orb_false_iff.
       split; apply Z.eqb_neq; cbn [length]; lia. }
  unfold readability_formula, avg_sentence_length, avg_word_length.
  rewrite min_max_clamp, sum_len_total_chars.
  rewrite (mul_comm 0.5), (mul_comm 0.3).
  reflexivity.
Qed.

(** C9.  The readability score of a text is 0.0 when the text is empty
    or white space only (the tokenizers are not even called), 0.0 when
    the tokenizers find no sentence or no word, and otherwise the clamp
    to [0, 1] of [1 - (0.5 * avg_sentence_length + 0.3 *
    avg_word_length) / 20], with [avg_sentence_length] the number of
    words by the number of sentences and [avg_word_length] the sum of
    the lengths of the words by their number.  A score that is returned
    lies between 0 and 1. *)
Theorem readability_score_formula (E : Env) (t : string) (w : World) :
  (strip t = "" -> calculate_readability_score E t w = (Ok 0%float, w)) /\
  (forall ss ws,
      sent_tokenize E t = Ok ss ->
      word_tokenize E t = Ok ws ->
      calculate_readability_score E t w =
        (Ok (if String.eqb (strip t) "" || degenerate ws ss
             then 0%float
             else clamp (1 - (0.5 * PyFloat.int_div (Z.of_nat (length ws))
                                                    (Z.of_nat (length ss))
                              + 0.3 * PyFloat.int_div (total_chars ws)
                                                      (Z.of_nat (length ws))) / 20)%float
                        0%float 1%float), w)) /\
  (forall r,
      fst (calculate_readability_score E t w) = Ok r ->
      (0 <=? r)%float = true /\ (r <=? 1)%float = true).
Proof.
  split.
  { intros Hb. unfold calculate_readability_score. rewrite Hb. reflexivity. }
  split.
  { intros ss ws Hs Hw. apply calculate_readability_score_returns; assumption. }
  intros r Hr. unfold calculate_readability_score in Hr.
  destruct (String.eqb (strip t) "").
  { inversion Hr. split; vm_compute; reflexivity. }
  unfold bind, call, ret in Hr.
  destruct (sent_tokenize E t) as [ss|e]; [|discriminate Hr].
  destruct (word_tokenize E t) as [ws|e]; [|discriminate Hr].
  destruct ((Z.of_nat (length ss) =? 0)%Z || (Z.of_nat (length ws) =? 0)%Z).
  { inversion Hr. split; vm_compute; reflexivity. }
  cbn [fst] in Hr. inversion Hr. rewrite min_max_clamp. apply clamp_range.
Qed.

Lemma readability_score_formula_witness :
  calculate_readability_score Demo.env "   " (Demo.world true)
    = (Ok 0%float, Demo.world true) /\
  calculate_readability_score Demo.env "Hi there, you." (Demo.world true)
    = (Ok 0.839%float, Demo.world true).
Proof.
  destruct (readability_score_formula Demo.env "   " (Demo.world true)) as (Hblank & _).
  destruct (readability_score_formula Demo.env "Hi there, you." (Demo.world true))
    as (_ & Hf & _).
  split.
  - apply Hblank. reflexivity.
  - rewrite (Hf ["Hi there, you."] ["Hi"; "there"; ","; "you"; "."] eq_refl eq_refl).
    vm_compute. reflexivity.
Defined.


(* ===================================================================== *)
(** ** The single routes: failures, health, independence *)
(* ===================================================================== *)

(** X1.  When the toolkit call of a single-analyzer route raises on the
    text, the route answers with status 500 and the fixed detail of the
    route, whatever the exception was; the exception shows only in the
    one line the route adds to the log, and nothing else changes. *)
Theorem route_processing_failure (E : Env) (r : Route) (i : TextInput) (w : World)
        (e : exn) :
  is_analyze r = false ->
  capability_call E r i = Some (Raise e) ->
  serve E r i w =
    (Raise (HTTPException 500 (failure_detail r)),
     add_logs [failure_detail r +++ ": " +++ str_of_exn E e] w).
Proof.
  intros Hr Hc.
  destruct r; try discriminate Hr; unfold capability_call in Hc;
    [ destruct (nlp E) as [f|] eqn:Hh
    | destruct (nlp E) as [f|] eqn:Hh
    | destruct (sia E) as [f|] eqn:Hh
    | destruct (nlp E) as [f|] eqn:Hh
    | destruct (nlp E) as [f|] eqn:Hh ];
    try discriminate Hc; cbn [option_map] in Hc;
    destruct (f (text i)) as [v|e'] eqn:Hf; try discriminate Hc;
    cbn [forget] in Hc; inversion Hc; subst e'; unfold serve.
  - unfold extract_entities. rewrite Hh.
    unfold try_except, bind, call, logger_error, raise. rewrite Hf. reflexivity.
  - unfold extract_topics. rewrite Hh.
    unfold try_except, bind, call, logger_error, raise. rewrite Hf. reflexivity.
  - unfold analyze_sentiment. rewrite Hh.
    unfold try_except, bind, call, logger_error, raise. rewrite Hf. reflexivity.
  - unfold extract_timeline_events. rewrite Hh.
    unfold try_except, bind, call, logger_error, raise. rewrite Hf. reflexivity.
  - unfold extract_key_phrases. rewrite Hh.
    unfold try_except, bind, call, logger_error, raise. rewrite Hf. reflexivity.
Qed.

Lemma route_processing_failure_witness :
  serve Demo.env RouteKeyPhrases boom_request (Demo.world true) =
    (Raise (HTTPException 500 "Key phrase extraction failed"),
     mkWorld 1000 true ∅ ["Key phrase extraction failed: cannot parse"] []).
Proof.
  exact (route_processing_failure Demo.env RouteKeyPhrases boom_request (Demo.world true)
           (LibraryError "ValueError" "cannot parse") eq_refl eq_refl).
Defined.

Lemma missing_handle_flag {A} (h : option A) :
  bool_decide (is_Some h) = false <-> h = None.
Proof.
  destruct h as [a|].
  - split; [|discriminate]. intros H.
    rewrite bool_decide_eq_false in H. exfalso. apply H. eauto.
  - split; [reflexivity|]. intros _. apply bool_decide_eq_false. intros [x Hx]. discriminate.
Qed.

(** X2.  [/health] never fails and always says [healthy]; its three
    flags tell which routes are out of order: the spaCy flag is false
    exactly when the four spaCy routes answer every request with status
    503, the NLTK flag is false exactly when [/sentiment] does, and the
    Redis flag is false exactly when [/cache/clear] does. *)
Theorem health_flags_predict_routes (E : Env) (w : World) :
  exists spacy nltk redis,
    health_check E w = (Ok ("healthy", "nlp-service", (spacy, nltk, redis)), w) /\
    (spacy = false <->
     forall r i w', depends_on r SpaCy = true -> is_analyze r = false ->
                    respond E r i w' = Raise (HTTPException 503 "SpaCy model not available")) /\
    (nltk = false <->
     forall i w',
       respond E RouteSentiment i w'
       = Raise (HTTPException 503 "NLTK sentiment analyzer not available")) /\
    (redis = false <->
     forall w', fst (clear_cache E w') = Raise (HTTPException 503 "Redis not available")).
Proof.
  eexists _, _, _. split; [reflexivity|].
  split; [|split].
  - rewrite missing_handle_flag. split.
    + intros Hn r i w' Hd Hr.
      destruct r; try discriminate Hd; try discriminate Hr; unfold respond.
      * unfold extract_entities. rewrite Hn. reflexivity.
      * unfold extract_topics. rewrite Hn. reflexivity.
      * unfold extract_timeline_events. rewrite Hn. reflexivity.
      * unfold extract_key_phrases. rewrite Hn. reflexivity.
    + intros H. specialize (H RouteEntities (mkTextInput "" None None) w eq_refl eq_refl).
      unfold respond, extract_entities in H.
      destruct (nlp E) as [f|]; [|reflexivity]. exfalso.
      unfold try_except, bind, call, ret, logger_error, raise in H.
      destruct (f (text (mkTextInput "" None None))); discriminate H.
  - rewrite missing_handle_flag. split.
    + intros Hn i w'. unfold respond, analyze_sentiment. rewrite Hn. reflexivity.
    + intros H. specialize (H (mkTextInput "" None None) w).
      unfold respond, analyze_sentiment in H.
      destruct (sia E) as [f|]; [|reflexivity]. exfalso.
      unfold try_except, bind, call, ret, logger_error, raise in H.
      destruct (f (text (mkTextInput "" None None))); discriminate H.
  - split.
    + intros Hc w'. unfold clear_cache. rewrite Hc. reflexivity.
    + intros H. specialize (H w). unfold clear_cache in H.
      destruct (redis_client E); [|reflexivity]. exfalso.
      unfold try_except, bind, redis_flushdb, ret, logger_error, raise in H.
      cbn [negb] in H. destruct (redis_up w); discriminate H.
Qed.

(** X3.  [/ambiguities] needs no toolkit and cannot fail: in any
    environment and any world it returns, leaves the world as it was
    and depends on the text only up to the case of its letters; there
    are never more than twenty results. *)
Theorem detect_ambiguities_needs_no_toolkit (E1 E2 : Env) (i1 i2 : TextInput)
        (w1 w2 : World) :
  lower (text i1) = lower (text i2) ->
  exists results,
    detect_ambiguities E1 i1 w1 = (Ok results, w1) /\
    detect_ambiguities E2 i2 w2 = (Ok results, w2) /\
    (length results <= 20)%nat.
Proof.
  intros Hl. eexists. split; [|split].
  - unfold detect_ambiguities, try_except, ret. cbv zeta.
    rewrite !scan_terms_filter. reflexivity.
  - unfold detect_ambiguities, try_except, ret. cbv zeta.
    rewrite !scan_terms_filter, Hl. reflexivity.
  - cbn [app]. rewrite !length_app, !length_map.
    pose proof (List.filter_length_le (present (lower (text i2))) ambiguous_pronouns) as H1.
    pose proof (List.filter_length_le (present (lower (text i2))) vague_quantifiers) as H2.
    pose proof (List.filter_length_le (present (lower (text i2))) temporal_vague) as H3.
    cbn [length ambiguous_pronouns vague_quantifiers temporal_vague] in H1, H2, H3.
    rewrite <- Hl in *. lia.
Qed.

Lemma detect_ambiguities_needs_no_toolkit_witness :
  exists results,
    detect_ambiguities Demo.env_no_nlp (mkTextInput "THEY left SOON." None None)
                       (Demo.world false) = (Ok results, Demo.world false) /\
    detect_ambiguities Demo.env (mkTextInput "they left soon." (Some "s1") None)
                       (Demo.world true) = (Ok results, Demo.world true).
Proof.
  destruct (detect_ambiguities_needs_no_toolkit
              Demo.env_no_nlp Demo.env
              (mkTextInput "THEY left SOON." None None)
              (mkTextInput "they left soon." (Some "s1") None)
              (Demo.world false) (Demo.world true) eq_refl)
    as (results & H1 & H2 & _).
  exists results. split; [exact H1 | exact H2].
Defined.

(* ===================================================================== *)
(** ** Topics, key phrases and timeline events *)
(* ===================================================================== *)

Section ListFacts.

Lemma mem_In (x : string) (l : list string) : mem x l = true <-> In x l.
Proof.
  unfold mem. rewrite existsb_exists. split.
  - intros (y & Hy & He). apply String.eqb_eq in He. subst y. exact Hy.
  - intros H. exists x. split; [exact H | apply String.eqb_refl].
Qed.



Lemma In_firstn {A} (n : nat) (l : list A) (x : A) : In x (firstn n l) -> In x l.
Proof.
  revert l. induction n as [|n IH]; intros [|y l]; simpl; try tauto.
  intros [H|H]; [left; exact H | right; apply IH; exact H].
Qed.


Lemma count_occ_firstn (n : nat) (l : list string) (x : string) :
  (count_occ string_dec (firstn n l) x <= count_occ string_dec l x)%nat.
Proof.
  revert l. induction n as [|n IH]; intros [|y l]; cbn [firstn count_occ]; try lia.
  specialize (IH l). destruct (string_dec y x); lia.
Qed.

Lemma firstn_all_short {A} (n : nat) (l : list A) : (length l <= n)%nat -> firstn n l = l.
Proof. intros H. apply firstn_all2. exact H. Qed.

End ListFacts.

Section TopicFacts.

Variable E : Env.



End TopicFacts.





Section KeyPhraseFacts.

Variable E : Env.

(** The second loop of [/keyphrases]: the texts of the entities that
    are not in the list yet are added at its end, each of them once. *)
Lemma add_entities_spec (ents : list Span) (acc : list string) :
  exists extra,
    fold_left
      (fun key_phrases ent =>
         if negb (mem (span_text ent) key_phrases)
         then key_phrases ++ [span_text ent]
         else key_phrases)
      ents acc = acc ++ extra /\
    List.NoDup extra /\
    (forall x, In x extra -> ~ In x acc /\ exists ent, In ent ents /\ x = span_text ent) /\
    (forall ent, In ent ents -> In (span_text ent) (acc ++ extra)) /\
    (length extra <= length ents)%nat.
Proof.
  revert acc. induction ents as [|ent ents IH]; intros acc.
  - exists []. cbn [fold_left]. rewrite app_nil_r.
    split; [reflexivity|]. split; [constructor|].
    split; [intros x []|]. split; [intros ent []|]. cbn [length]. lia.
  - cbn [fold_left]. destruct (mem (span_text ent) acc) eqn:Hm; cbn [negb].
    + destruct (IH acc) as (extra & Hrun & Hnd & Hnew & Hall & Hlen).
      exists extra. split; [exact Hrun|]. split; [exact Hnd|]. split.
      { intros x Hx. destruct (Hnew x Hx) as (Hna & en & Hen & Hx').
        split; [exact Hna|]. exists en. split; [right; exact Hen | exact Hx']. }
      split.
      { intros en [Hen|Hen]; [|apply Hall; exact Hen].
        subst en. apply in_or_app. left. apply mem_In. exact Hm. }
      cbn [length]. lia.
    + destruct (IH (acc ++ [span_text ent])) as (extra & Hrun & Hnd & Hnew & Hall & Hlen).
      exists (span_text ent :: extra). split.
      { rewrite Hrun, <- app_assoc. reflexivity. }
      assert (Hnot : ~ In (span_text ent) acc).
      { intros Hin. apply mem_In in Hin. rewrite Hin in Hm. discriminate Hm. }
      split.
      { constructor; [|exact Hnd]. intros Hin. destruct (Hnew _ Hin) as (Hna & _).
        apply Hna. apply in_or_app. right. left. reflexivity. }
      split.
      { intros x [Hx|Hx].
        - subst x. split; [exact Hnot|]. exists ent. split; [left|]; reflexivity.
        - destruct (Hnew x Hx) as (Hna & en & Hen & Hx'). split.
          + intros Hin. apply Hna. apply in_or_app. left. exact Hin.
          + exists en. split; [right; exact Hen | exact Hx']. }
      split.
      { intros en [Hen|Hen].
        - subst en. apply in_or_app. right. left. reflexivity.
        - specialize (Hall en Hen). rewrite <- app_assoc in Hall. exact Hall. }
      cbn [length]. lia.
Qed.

(** The first loop of [/keyphrases]. *)
Lemma add_chunks_spec (chunks : list string) (acc : list string) :
  fold_left
    (fun key_phrases chunk =>
       if (2 <? len (strip chunk))%Z && negb (mem (lower chunk) (stop_words E))
       then key_phrases ++ [strip chunk]
       else key_phrases)
    chunks acc
  = acc ++ map strip
        (List.filter
           (fun chunk => (2 <? len (strip chunk))%Z
                         && negb (mem (lower chunk) (stop_words E)))
           chunks).
Proof.
  revert acc. induction chunks as [|c chunks IH]; intros acc; cbn [fold_left List.filter].
  - rewrite app_nil_r. reflexivity.
  - rewrite IH.
    destruct ((2 <? len (strip c))%Z && negb (mem (lower c) (stop_words E))).
    + rewrite <- app_assoc. reflexivity.
    + reflexivity.
Qed.

Lemma chunk_phrase_In (doc : Doc) (p : string) :
  In p (map strip
          (List.filter
             (fun chunk => (2 <? len (strip chunk))%Z
                           && negb (mem (lower chunk) (stop_words E)))
             (noun_chunks doc)))
  <-> chunk_phrase E doc p.
Proof.
  unfold chunk_phrase. rewrite in_map_iff. split.
  - intros (chunk & Hp & Hin). apply filter_In in Hin. destruct Hin as [Hin Hc].
    apply andb_true_iff in Hc. destruct Hc as [Hlen Hstop].
    apply Z.ltb_lt in Hlen. apply negb_true_iff in Hstop.
    exists chunk. subst p. auto.
  - intros (chunk & Hin & Hp & Hlen & Hstop). exists chunk. split; [auto|].
    apply filter_In. split; [exact Hin|]. apply andb_true_iff. subst p. split.
    + apply Z.ltb_lt. exact Hlen.
    + apply negb_true_iff. exact Hstop.
Qed.

End KeyPhraseFacts.

(** X5.  When the pipeline returns a document, [/keyphrases] returns
    at most twenty phrases; each is the trimmed text of a noun chunk
    (longer than two characters, its lower-cased text no stop word) or
    the text of an entity; a phrase that is not such a chunk text is
    never returned twice; and when the document has at most twenty
    chunks and entities together, every such chunk text and every
    entity text is returned. *)
Theorem extract_key_phrases_properties (E : Env) (f : string -> outcome Doc)
        (i : TextInput) (w : World) (doc : Doc) :
  nlp E = Some f ->
  f (text i) = Ok doc ->
  exists kps,
    extract_key_phrases E i w = (Ok kps, w) /\
    (length kps <= 20)%nat /\
    (forall p, In p kps ->
               chunk_phrase E doc p \/ exists ent, In ent (ents doc) /\ p = span_text ent) /\
    (forall p, ~ chunk_phrase E doc p -> (count_occ string_dec kps p <= 1)%nat) /\
    ((length (noun_chunks doc) + length (ents doc) <= 20)%nat ->
     (forall p, chunk_phrase E doc p -> In p kps) /\
     (forall ent, In ent (ents doc) -> In (span_text ent) kps)).
Proof.
  intros Hn Hf.
  set (chunks := map strip
                   (List.filter
                      (fun chunk => (2 <? len (strip chunk))%Z
                                    && negb (mem (lower chunk) (stop_words E)))
                      (noun_chunks doc))).
  destruct (add_entities_spec (ents doc) chunks) as (extra & Hrun & Hnd & Hnew & Hall & Hlen).
  exists (firstn 20 (chunks ++ extra)). split.
  { unfold extract_key_phrases. rewrite Hn.
    unfold try_except, bind, call, ret. rewrite Hf. cbv zeta.
    rewrite add_chunks_spec. cbn [app]. fold chunks. rewrite Hrun. reflexivity. }
  split; [apply firstn_le_length|].
  split.
  { intros p Hp. apply In_firstn in Hp. apply in_app_or in Hp. destruct Hp as [Hp|Hp].
    - left. apply chunk_phrase_In. exact Hp.
    - right. destruct (Hnew p Hp) as (_ & ent & Hent & Hpe). exists ent. auto. }
  split.
  { intros p Hp.
    pose proof (count_occ_firstn 20 (chunks ++ extra) p) as Hle.
    rewrite count_occ_app in Hle.
    assert (H0 : count_occ string_dec chunks p = 0%nat).
    { apply count_occ_not_In. intros Hin. apply Hp. apply chunk_phrase_In. exact Hin. }
    pose proof (proj1 (NoDup_count_occ string_dec extra) Hnd p). lia. }
  intros Hsmall.
  assert (Hfull : firstn 20 (chunks ++ extra) = chunks ++ extra).
  { apply firstn_all_short. rewrite length_app. unfold chunks. rewrite length_map.
    pose proof (List.filter_length_le
                  (fun chunk => (2 <? len (strip chunk))%Z
                                && negb (mem (lower chunk) (stop_words E)))
                  (noun_chunks doc)).
    lia. }
  rewrite Hfull. split.
  - intros p Hp. apply in_or_app. left. apply chunk_phrase_In. exact Hp.
  - intros ent Hent. apply Hall. exact Hent.
Qed.

Lemma extract_key_phrases_properties_witness :
  exists kps,
    extract_key_phrases Demo.env (mkTextInput "Acme hired them." None None)
                        (Demo.world true) = (Ok kps, Demo.world true) /\
    kps = ["Acme"].
Proof.
  destruct (extract_key_phrases_properties
              Demo.env Demo.pipeline (mkTextInput "Acme hired them." None None)
              (Demo.world true) (mkDoc [mkSpan "Acme" "ORG" 0 4] ["Acme"; "them"])
              eq_refl eq_refl)
    as (kps & Hrun & _).
  exists kps. split; [exact Hrun|].
  assert (H : fst (extract_key_phrases Demo.env (mkTextInput "Acme hired them." None None)
                                       (Demo.world true)) = Ok kps)
    by (rewrite Hrun; reflexivity).
  vm_compute in H. inversion H. reflexivity.
Defined.








(* ===================================================================== *)
(** ** The cache: keys, round trip, clearing, status *)
(* ===================================================================== *)

Section KeyFacts.

Lemma colon_free_uint (d : Decimal.uint) : colon_free (NilEmpty.string_of_uint d) = true.
Proof. induction d; cbn [NilEmpty.string_of_uint colon_free]; auto. Qed.

Lemma colon_free_str_of_int (n : Z) : colon_free (str_of_int n) = true.
Proof.
  unfold str_of_int, NilZero.string_of_int, NilZero.string_of_uint.
  destruct (Z.to_int n) as [d|d]; destruct d; try reflexivity;
    try apply (colon_free_uint (_ d)); cbn [colon_free]; apply (colon_free_uint (_ d)).
Qed.

Lemma to_int_proper (n : Z) : Z.to_int n <> Decimal.Pos Decimal.Nil /\
                              Z.to_int n <> Decimal.Neg Decimal.Nil.
Proof.
  destruct n as [|p|p]; cbn [Z.to_int]; split; try discriminate;
    intros H; inversion H as [Hp]; apply (DecimalPos.Unsigned.to_uint_nonnil p Hp).
Qed.

Lemma str_of_int_inj (a b : Z) : str_of_int a = str_of_int b -> a = b.
Proof.
  unfold str_of_int. intros H.
  apply (f_equal NilZero.int_of_string) in H.
  destruct (to_int_proper a) as [Ha1 Ha2]. destruct (to_int_proper b) as [Hb1 Hb2].
  rewrite !NilZero.isi in H by assumption.
  inversion H as [H']. apply (f_equal Z.of_int) in H'.
  rewrite !DecimalZ.of_to in H'. exact H'.
Qed.

Lemma str_of_int_not_None (n : Z) : str_of_int n <> "None".
Proof.
  unfold str_of_int. intros H.
  apply (f_equal NilZero.int_of_string) in H.
  destruct (to_int_proper n) as [H1 H2].
  rewrite NilZero.isi in H by assumption. discriminate H.
Qed.

Lemma format_opt_int_inj (a b : option Z) : format_opt_int a = format_opt_int b -> a = b.
Proof.
  destruct a as [a|], b as [b|]; cbn [format_opt_int]; intros H.
  - f_equal. apply str_of_int_inj. exact H.
  - exfalso. apply (str_of_int_not_None a). exact H.
  - exfalso. apply (str_of_int_not_None b). symmetry. exact H.
  - reflexivity.
Qed.

Lemma colon_free_format_opt_int (a : option Z) : colon_free (format_opt_int a) = true.
Proof. destruct a; [apply colon_free_str_of_int | reflexivity]. Qed.

Lemma colon_free_no_colon (a b : string) : colon_free (a +++ ":" +++ b) = false.
Proof.
  induction a as [|c a IH]; [reflexivity|].
  rewrite append_cons. cbn [colon_free]. rewrite IH. apply andb_false_r.
Qed.

(** A text is cut in one way only at its last colon. *)
Lemma last_colon_split (a b x y : string) :
  colon_free x = true -> colon_free y = true ->
  a +++ ":" +++ x = b +++ ":" +++ y -> a = b /\ x = y.
Proof.
  intros Hx Hy. revert b. induction a as [|c a IH]; intros [|d b] H.
  - change (String ":" x = String ":" y) in H. injection H as H. auto.
  - change (String ":" x = String d (b +++ ":" +++ y)) in H. injection H as Hc Hr.
    rewrite Hr, colon_free_no_colon in Hx. discriminate Hx.
  - change (String c (a +++ ":" +++ x) = String ":" y) in H. injection H as Hc Hr.
    rewrite <- Hr, colon_free_no_colon in Hy. discriminate Hy.
  - change (String c (a +++ ":" +++ x) = String d (b +++ ":" +++ y)) in H.
    injection H as Hc Hr.
    destruct (IH b Hr) as [Hab Hxy]. subst. auto.
Qed.

End KeyFacts.

(** X7.  Two requests that carry a session id have the same cache key
    exactly when they have the same session id and the same turn number
    (or both none): no two sessions and no two turns of a session share
    an entry of the cache. *)
Theorem cache_key_injective (i1 i2 : TextInput) (s1 s2 : string) :
  session_id i1 = Some s1 ->
  session_id i2 = Some s2 ->
  cache_key i1 = cache_key i2 <-> s1 = s2 /\ turn_number i1 = turn_number i2.
Proof.
  intros H1 H2. unfold cache_key. rewrite H1, H2. cbn [format_opt_str]. split.
  - intros H. apply append_inj_l in H.
    apply last_colon_split in H; try apply colon_free_format_opt_int.
    destruct H as [Hs Ht]. split; [exact Hs|]. apply format_opt_int_inj. exact Ht.
  - intros [Hs Ht]. rewrite Hs, Ht. reflexivity.
Qed.

Lemma cache_key_injective_witness :
  cache_key (mkTextInput "a" (Some "s:1") (Some 2))
  <> cache_key (mkTextInput "a" (Some "s") (Some 12)) /\
  cache_key (mkTextInput "a" (Some "s1") None)
  = cache_key (mkTextInput "b" (Some "s1") None).
Proof.
  split.
  - intros H.
    apply (proj1 (cache_key_injective (mkTextInput "a" (Some "s:1") (Some 2))
                                      (mkTextInput "a" (Some "s") (Some 12))
                                      "s:1" "s" eq_refl eq_refl)) in H.
    destruct H as [H _]. discriminate H.
  - apply (proj2 (cache_key_injective (mkTextInput "a" (Some "s1") None)
                                      (mkTextInput "b" (Some "s1") None)
                                      "s1" "s1" eq_refl eq_refl)).
    split; reflexivity.
Defined.

Section CacheFacts.

Variable E : Env.

(** A request that returns has run the eight stages and the cache step;
    when it was to cache, the server was up. *)
Lemma analyze_text_returns_cached (i : TextInput) (w : World) (r : NLPAnalysisResult) :
  fst (analyze_text E i w) = Ok r ->
  redis_client E = true ->
  truthy (session_id i) = true ->
  redis_up w = true /\
  redis_db (snd (analyze_text E i w))
  = <[cache_key i := (3600, json_dumps E r)]> (redis_db w) /\
  redis_up (snd (analyze_text E i w)) = true.
Proof.
  intros Hok Hc Hs.
  destruct (analyze_text_cases E i)
    as [(en & to & se & am & tl & kp & rs & la & _ & _ & _ & _ & _ & _ & _ & _ & H)
       |(s & e & _ & H)].
  2: { destruct (H w) as (Hout & _). rewrite Hout in Hok. discriminate. }
  rewrite H in Hok |- *. unfold cache_step in *.
  change (redis_up (assembled_world E w)) with (redis_up w) in *.
  rewrite Hc, Hs in *. cbn [andb] in *.
  destruct w as [t up db lg tr]. cbn [redis_up] in *.
  destruct up; cbn [fst] in Hok; [|discriminate].
  inversion Hok; subst r; clear Hok. norm_out. repeat split.
Qed.

(** A request that is not to cache goes through the eight stages and
    stops there. *)
Lemma analyze_text_uncached (i : TextInput) (w : World) :
  redis_client E && truthy (session_id i) = false ->
  redis_db (snd (analyze_text E i w)) = redis_db w /\
  forallb (fun ev => negb (is_setex ev)) (events_of E i w) = true.
Proof.
  intros Hno.
  destruct (analyze_text_cases E i)
    as [(en & to & se & am & tl & kp & rs & la & _ & _ & _ & _ & _ & _ & _ & _ & H)
       |(s & e & _ & H)].
  - unfold events_of. rewrite H. unfold cache_step. rewrite Hno.
    destruct w as [t up db lg tr]. norm_out. split; [reflexivity|].
    rewrite drop_app_length. reflexivity.
  - destruct (H w) as (_ & Hdb & _ & (evs & Htr & Hevs) & _).
    split; [exact Hdb|]. unfold events_of. rewrite Htr, drop_app_length. exact Hevs.
Qed.

End CacheFacts.

(** X8.  The cache round trip: after a request to [/analyze] that
    returns, with a session id and with the cache client present, the
    entry under the key of the request holds the serialized result that
    was returned, with an expiry of 3600 seconds, whatever was stored
    there before; every other entry is as it was. *)
Theorem analyze_text_cache_round_trip (E : Env) (i : TextInput) (w : World)
        (r : NLPAnalysisResult) :
  fst (analyze_text E i w) = Ok r ->
  redis_client E = true ->
  truthy (session_id i) = true ->
  redis_db (snd (analyze_text E i w)) !! cache_key i = Some (3600, json_dumps E r) /\
  forall k, k <> cache_key i ->
            redis_db (snd (analyze_text E i w)) !! k = redis_db w !! k.
Proof.
  intros Hok Hc Hs.
  destruct (analyze_text_returns_cached E i w r Hok Hc Hs) as (_ & Hdb & _).
  rewrite Hdb. split.
  - apply lookup_insert_eq.
  - intros k Hk. apply lookup_insert_ne. congruence.
Qed.

Lemma analyze_text_cache_round_trip_witness :
  exists r,
    fst (analyze_text Demo.env cached_request (Demo.world true)) = Ok r /\
    redis_db (snd (analyze_text Demo.env cached_request (Demo.world true)))
      !! "nlp_analysis:s1:2" = Some (3600, Demo.encode r).
Proof.
  assert (H : exists r, fst (analyze_text Demo.env cached_request (Demo.world true)) = Ok r).
  { eexists. vm_compute. reflexivity. }
  destruct H as [r Hr]. exists r. split; [exact Hr|].
  exact (proj1 (analyze_text_cache_round_trip Demo.env cached_request (Demo.world true) r
                  Hr eq_refl eq_refl)).
Defined.

(** X9.  A request to [/analyze] without a session id, with an empty
    one, or in a process without cache client never touches Redis: it
    makes no [setex] call and leaves the store as it was, whether it
    returns or fails, and its outcome is the same whether the server is
    up or down and whatever the store holds. *)
Theorem analyze_text_without_cache (E : Env) (i : TextInput) (w : World) :
  redis_client E && truthy (session_id i) = false ->
  redis_db (snd (analyze_text E i w)) = redis_db w /\
  forallb (fun ev => negb (is_setex ev)) (events_of E i w) = true /\
  forall up db,
    fst (analyze_text E i (mkWorld (now w) up db (logs w) (trace w)))
    = fst (analyze_text E i w).
Proof.
  intros Hno.
  destruct (analyze_text_uncached E i w Hno) as [Hdb Hev].
  split; [exact Hdb|]. split; [exact Hev|].
  intros up db.
  destruct (analyze_text_cases E i)
    as [(en & to & se & am & tl & kp & rs & la & _ & _ & _ & _ & _ & _ & _ & _ & H)
       |(s & e & _ & H)].
  - rewrite !H. unfold cache_step. rewrite Hno. reflexivity.
  - destruct (H w) as (Hout & _).
    destruct (H (mkWorld (now w) up db (logs w) (trace w))) as (Hout' & _).
    rewrite Hout, Hout'. reflexivity.
Qed.

Lemma analyze_text_without_cache_witness :
  redis_db (snd (analyze_text Demo.env (mkTextInput met_text (Some "") (Some 2))
                              (Demo.world false))) = ∅ /\
  exists r, fst (analyze_text Demo.env (mkTextInput met_text (Some "") (Some 2))
                              (Demo.world false)) = Ok r.
Proof.
  split.
  - exact (proj1 (analyze_text_without_cache
                    Demo.env (mkTextInput met_text (Some "") (Some 2)) (Demo.world false)
                    eq_refl)).
  - eexists. vm_compute. reflexivity.
Defined.

(** X10.  [/cache/status] never fails and never changes anything, not
    even the log: without a cache client it says [unavailable]; with a
    client and a server that is down it says [error] and gives the
    text of the exception; with a client and a server that is up it
    says [available], passes on the two figures of the server (0 and
    [0B] when the server does not give them) and counts the entries of
    the store, four fields in this order. *)
Theorem cache_status_never_fails (E : Env) (info : gmap string pyval) (w : World) :
  exists body,
    cache_status E info w = (Ok body, w) /\
    (map fst body = ["status"] /\ redis_client E = false /\
     body = [("status", PyStr "unavailable")]
     \/
     map fst body = ["status"; "message"] /\ redis_client E = true /\ redis_up w = false /\
     body = [("status", PyStr "error"); ("message", PyStr (str_of_exn E redis_error))]
     \/
     map fst body = ["status"; "connected_clients"; "used_memory"; "total_keys"] /\
     redis_client E = true /\ redis_up w = true /\
     body = [("status", PyStr "available");
             ("connected_clients",
              match info !! "connected_clients" with Some v => v | None => PyInt 0 end);
             ("used_memory",
              match info !! "used_memory_human" with Some v => v | None => PyStr "0B" end);
             ("total_keys", PyInt (Z.of_nat (size (redis_db w))))]).
Proof.
  unfold cache_status. destruct (redis_client E); cbn [negb].
  - unfold try_except, bind, redis_info, redis_dbsize, ret.
    destruct (redis_up w) eqn:Hup.
    + rewrite Hup. eexists. split; [reflexivity|]. right. right. repeat split.
    + eexists. split; [reflexivity|]. right. left. repeat split.
  - eexists. split; [reflexivity|]. left. repeat split.
Qed.

(** X11.  [/cache/clear] with a client and a server that is up empties
    the store and changes nothing else: no key has an entry any more,
    [/cache/status] counts zero entries, and a request to [/analyze]
    that caches afterwards leaves exactly its own entry. *)
Theorem clear_cache_empties (E : Env) (info : gmap string pyval) (w : World) :
  redis_client E = true ->
  redis_up w = true ->
  clear_cache E w = (Ok [("message", PyStr "Cache cleared successfully")], with_db ∅ w) /\
  (forall k, redis_db (snd (clear_cache E w)) !! k = None) /\
  In ("total_keys", PyInt 0) (match fst (cache_status E info (snd (clear_cache E w))) with
                              | Ok body => body
                              | Raise _ => []
                              end) /\
  forall i r,
    fst (analyze_text E i (snd (clear_cache E w))) = Ok r ->
    truthy (session_id i) = true ->
    redis_db (snd (analyze_text E i (snd (clear_cache E w))))
    = {[ cache_key i := (3600, json_dumps E r) ]}.
Proof.
  intros Hc Hup.
  assert (Hrun : clear_cache E w
                 = (Ok [("message", PyStr "Cache cleared successfully")], with_db ∅ w)).
  { unfold clear_cache. rewrite Hc. cbn [negb].
    unfold try_except, bind, redis_flushdb, ret. rewrite Hup. reflexivity. }
  split; [exact Hrun|]. rewrite Hrun. cbn [snd].
  split; [intros k; apply lookup_empty|].
  split.
  { unfold cache_status. rewrite Hc. cbn [negb].
    unfold try_except, bind, redis_info, redis_dbsize, ret.
    destruct w as [t up db lg tr]. cbn [redis_up] in Hup. subst up.
    norm_out. cbn [In]. right. right. right. left. reflexivity. }
  intros i r Hok Hs.
  destruct (analyze_text_returns_cached E i (with_db ∅ w) r Hok Hc Hs) as (_ & Hdb & _).
  rewrite Hdb. reflexivity.
Qed.

Lemma clear_cache_empties_witness :
  redis_db (snd (analyze_text Demo.env cached_request (Demo.world true)))
    !! "nlp_analysis:s1:2" = Some (3600, "json(en)") /\
  redis_db (snd (clear_cache Demo.env
                   (snd (analyze_text Demo.env cached_request (Demo.world true)))))
    !! "nlp_analysis:s1:2" = None.
Proof.
  split; [vm_compute; reflexivity|].
  assert (Hup : redis_up (snd (analyze_text Demo.env cached_request (Demo.world true)))
                = true) by (vm_compute; reflexivity).
  destruct (clear_cache_empties Demo.env ∅
              (snd (analyze_text Demo.env cached_request (Demo.world true)))
              eq_refl Hup) as (_ & Hnone & _).
  exact (Hnone "nlp_analysis:s1:2").
Defined.

(** X12.  When [/cache/clear] cannot clear, the store is not touched:
    without a client it answers with status 503 and logs nothing; with
    a client and a server that is down it answers with status 500 and
    a fixed detail, and logs the exception. *)
Theorem clear_cache_failure (E : Env) (w : World) :
  redis_client E && redis_up w = false ->
  fst (clear_cache E w) =
    Raise (if redis_client E then HTTPException 500 "Cache clear failed"
           else HTTPException 503 "Redis not available") /\
  redis_db (snd (clear_cache E w)) = redis_db w /\
  logs (snd (clear_cache E w)) =
    (if redis_client E
     then logs w ++ ["Cache clear failed: " +++ str_of_exn E redis_error]
     else logs w).
Proof.
  intros H. unfold clear_cache. destruct (redis_client E); cbn [negb andb] in *.
  - unfold try_except, bind, redis_flushdb, ret, logger_error, raise.
    rewrite H. repeat split.
  - repeat split.
Qed.

Lemma clear_cache_failure_witness :
  fst (clear_cache Demo.env (Demo.world false))
    = Raise (HTTPException 500 "Cache clear failed") /\
  redis_db (snd (clear_cache Demo.env (Demo.world false))) = ∅.
Proof.
  destruct (clear_cache_failure Demo.env (Demo.world false) eq_refl) as (H1 & H2 & _).
  split; [exact H1 | exact H2].
Defined.

(** X13.  [/cache/status] after [/analyze]: when a request with a
    session id returns in a process with a cache client, the status
    route says [available] and counts one entry more than the store
    had before if the key of the request was new, and as many as
    before if it was not. *)
Theorem cache_status_counts_analysis (E : Env) (info : gmap string pyval)
        (i : TextInput) (w : World) (r : NLPAnalysisResult) :
  fst (analyze_text E i w) = Ok r ->
  redis_client E = true ->
  truthy (session_id i) = true ->
  exists clients memory,
    fst (cache_status E info (snd (analyze_text E i w))) =
      Ok [("status", PyStr "available"); ("connected_clients", clients);
          ("used_memory", memory);
          ("total_keys",
           PyInt (Z.of_nat (size (redis_db w))
                  + match redis_db w !! cache_key i with Some _ => 0 | None => 1 end))].
Proof.
  intros Hok Hc Hs.
  destruct (analyze_text_returns_cached E i w r Hok Hc Hs) as (_ & Hdb & Hup).
  unfold cache_status. rewrite Hc. cbn [negb].
  unfold try_except, bind, redis_info, redis_dbsize, ret.
  rewrite Hup. cbv beta iota. rewrite Hup, Hdb. cbv beta iota.
  eexists _, _. cbn [fst]. do 5 f_equal. f_equal. f_equal.
  destruct (redis_db w !! cache_key i) as [v|] eqn:Hk.
  - rewrite map_size_insert_Some by eauto. lia.
  - rewrite map_size_insert_None by exact Hk. lia.
Qed.

Lemma cache_status_counts_analysis_witness :
  exists clients memory,
    fst (cache_status Demo.env ∅
           (snd (analyze_text Demo.env cached_request (Demo.world true)))) =
      Ok [("status", PyStr "available"); ("connected_clients", clients);
          ("used_memory", memory); ("total_keys", PyInt 1)].
Proof.
  assert (H : exists r, fst (analyze_text Demo.env cached_request (Demo.world true)) = Ok r).
  { eexists. vm_compute. reflexivity. }
  destruct H as [r Hr].
  exact (cache_status_counts_analysis Demo.env ∅ cached_request (Demo.world true) r
           Hr eq_refl eq_refl).
Defined.

(* ===================================================================== *)
(** ** The combined analysis as a composition of the routes *)
(* ===================================================================== *)

Section CompositionFacts.

Variable E : Env.

Lemma extract_topics_bound (i : TextInput) (w : World) (ts : list TopicResult) :
  fst (extract_topics E i w) = Ok ts -> (length ts <= 10)%nat.
Proof.
  unfold extract_topics. destruct (nlp E) as [f|]; [|discriminate].
  unfold try_except, bind, call, ret, logger_error, raise.
  destruct (f (text i)) as [doc|e]; [|discriminate].
  cbv zeta. rewrite fold_left_snoc. cbn [fst app]. intros H. inversion H.
  rewrite length_map. apply firstn_le_length.
Qed.

Lemma extract_key_phrases_bound (i : TextInput) (w : World) (kps : list string) :
  fst (extract_key_phrases E i w) = Ok kps -> (length kps <= 20)%nat.
Proof.
  unfold extract_key_phrases. destruct (nlp E) as [f|]; [|discriminate].
  unfold try_except, bind, call, ret, logger_error, raise.
  destruct (f (text i)) as [doc|e]; [|discriminate].
  cbv zeta. cbn [fst]. intros H. inversion H. apply firstn_le_length.
Qed.

Lemma readability_in_range (t : string) (w : World) (r : float) :
  fst (calculate_readability_score E t w) = Ok r ->
  (0 <=? r)%float = true /\ (r <=? 1)%float = true.
Proof.
  intros Hr. unfold calculate_readability_score in Hr.
  destruct (String.eqb (strip t) "").
  { inversion Hr. split; vm_compute; reflexivity. }
  unfold bind, call, ret in Hr.
  destruct (sent_tokenize E t) as [ss|e]; [|discriminate Hr].
  destruct (word_tokenize E t) as [ws|e]; [|discriminate Hr].
  destruct ((Z.of_nat (length ss) =? 0)%Z || (Z.of_nat (length ws) =? 0)%Z).
  { inversion Hr. split; vm_compute; reflexivity. }
  cbn [fst] in Hr. inversion Hr. rewrite min_max_clamp. apply clamp_range.
Qed.

End CompositionFacts.

(** X14.  The result of [/analyze] is made of what the single routes
    return for the same input: each of its six analyzer fields is the
    result of the route of that name, the readability score is that of
    the helper, and the language is always [en]; so it has at most ten
    topics and at most twenty key phrases and a readability score
    between 0 and 1. *)
Theorem analyze_text_fields (E : Env) (i : TextInput) (w : World)
        (r : NLPAnalysisResult) :
  fst (analyze_text E i w) = Ok r ->
  (forall w', extract_entities E i w' = (Ok (entities r), w')) /\
  (forall w', extract_topics E i w' = (Ok (topics r), w')) /\
  (forall w', analyze_sentiment E i w' = (Ok (sentiment r), w')) /\
  (forall w', detect_ambiguities E i w' = (Ok (ambiguities r), w')) /\
  (forall w', extract_timeline_events E i w' = (Ok (timeline_events r), w')) /\
  (forall w', extract_key_phrases E i w' = (Ok (key_phrases r), w')) /\
  (forall w', calculate_readability_score E (text i) w' = (Ok (readability_score r), w')) /\
  language r = "en" /\
  (length (topics r) <= 10)%nat /\
  (length (key_phrases r) <= 20)%nat /\
  (0 <=? readability_score r)%float = true /\
  (readability_score r <=? 1)%float = true.
Proof.
  intros Hok.
  destruct (analyze_text_cases E i)
    as [(en & to & se & am & tl & kp & rs & la
         & Hen & Hto & Hse & Ham & Htl & Hkp & Hrs & Hla & H)
       |(s & e & _ & H)].
  2: { destruct (H w) as (Hout & _). rewrite Hout in Hok. discriminate. }
  assert (Hr : r = mkNLPAnalysisResult en to se am tl kp la rs
                     (total_seconds (clock_after E timed_stages (now w) - now w))).
  { rewrite H in Hok. unfold cache_step in Hok.
    destruct (redis_client E && truthy (session_id i)).
    - destruct (redis_up (assembled_world E w)); cbn [fst] in Hok;
        [inversion Hok; reflexivity | discriminate].
    - cbn [fst] in Hok. inversion Hok. reflexivity. }
  subst r. cbn [entities topics sentiment ambiguities timeline_events key_phrases
                readability_score language].
  do 7 (split; [assumption|]).
  split.
  { specialize (Hla w). unfold detect_language, ret in Hla. inversion Hla. reflexivity. }
  split.
  { apply (extract_topics_bound E i w). rewrite Hto. reflexivity. }
  split.
  { apply (extract_key_phrases_bound E i w). rewrite Hkp. reflexivity. }
  apply (readability_in_range E (text i) w). rewrite Hrs. reflexivity.
Qed.

Lemma analyze_text_fields_witness :
  exists r,
    fst (analyze_text Demo.env cached_request (Demo.world true)) = Ok r /\
    language r = "en" /\
    fst (extract_key_phrases Demo.env cached_request (Demo.world false))
      = Ok (key_phrases r).
Proof.
  assert (H : exists r, fst (analyze_text Demo.env cached_request (Demo.world true)) = Ok r).
  { eexists. vm_compute. reflexivity. }
  destruct H as [r Hr]. exists r. split; [exact Hr|].
  destruct (analyze_text_fields Demo.env cached_request (Demo.world true) r Hr)
    as (_ & _ & _ & _ & _ & Hkp & _ & Hla & _).
  split; [exact Hla|]. rewrite Hkp. reflexivity.
Defined.

(** Tactics that run one request step by step, keeping its trace. *)
Ltac open_request :=
  unfold events_of, analyze_text, bind, try_except, datetime_now;
  cbv beta iota zeta; norm_world.

Ltac stage_done s H :=
  rewrite (stage_ok _ s _ _ _ (H _)); cbv beta iota zeta; norm_world.

Ltac stage_failed s H :=
  rewrite (stage_raise _ s _ _ _ _ (H _)); cbv beta iota zeta;
  unfold logger_error, raise; cbv beta iota zeta; norm_world.

Ltac read_events :=
  repeat rewrite <- app_assoc; rewrite drop_app_length; reflexivity.

Ltac read_pair := cbv beta iota zeta delta [fst snd].

Ltac stopped_at k s e H :=
  read_pair; exists k; split;
  [ read_events
  | left; exists s; split;
    [ read_events
    | exists e; unfold stage_outcome; rewrite H; reflexivity ] ].

(** X15.  The stages of [/analyze] run in one fixed order and the
    request stops at the first stage that raises: what a request does
    is always a beginning of the sequence clock, entities, topics,
    sentiment, ambiguities, timeline, key phrases, clock, readability,
    language, cache write.  A request that returns has gone through the
    first ten steps at least; a request that fails has stopped either
    at a stage that raised or at the cache write. *)
Theorem analyze_text_fixed_order (E : Env) (i : TextInput) (w : World) :
  exists n,
    events_of E i w = firstn n (full_events E i w) /\
    match fst (analyze_text E i w) with
    | Ok _ => (10 <= n)%nat
    | Raise _ =>
        (exists s, List.last (events_of E i w) (EvNow 0) = EvStage s /\ stage_raises E s i w) \/
        List.last (events_of E i w) (EvNow 0) = EvSetex (cache_key i)
    end.
Proof.
  unfold full_events, clock_after.
  cbn [timed_stages untimed_stages map fold_left app].
  destruct w as [t up db lg tr].
  destruct (extract_entities_quiet E i) as [[en Hen]|(e & msgs & Hen)].
  2: { open_request. stage_failed Entities Hen. stopped_at 2%nat Entities e Hen. }
  destruct (extract_topics_quiet E i) as [[to Hto]|(e & msgs & Hto)].
  2: { open_request. stage_done Entities Hen. stage_failed Topics Hto.
       stopped_at 3%nat Topics e Hto. }
  destruct (analyze_sentiment_quiet E i) as [[se Hse]|(e & msgs & Hse)].
  2: { open_request. stage_done Entities Hen. stage_done Topics Hto.
       stage_failed Sentiment Hse. stopped_at 4%nat Sentiment e Hse. }
  destruct (detect_ambiguities_quiet E i) as [[am Ham]|(e & msgs & Ham)].
  2: { open_request. stage_done Entities Hen. stage_done Topics Hto.
       stage_done Sentiment Hse. stage_failed Ambiguities Ham.
       stopped_at 5%nat Ambiguities e Ham. }
  destruct (extract_timeline_events_quiet E i) as [[tl Htl]|(e & msgs & Htl)].
  2: { open_request. stage_done Entities Hen. stage_done Topics Hto.
       stage_done Sentiment Hse. stage_done Ambiguities Ham.
       stage_failed Timeline Htl. stopped_at 6%nat Timeline e Htl. }
  destruct (extract_key_phrases_quiet E i) as [[kp Hkp]|(e & msgs & Hkp)].
  2: { open_request. stage_done Entities Hen. stage_done Topics Hto.
       stage_done Sentiment Hse. stage_done Ambiguities Ham.
       stage_done Timeline Htl. stage_failed KeyPhrases Hkp.
       stopped_at 7%nat KeyPhrases e Hkp. }
  destruct (calculate_readability_score_quiet E (text i)) as [[rs Hrs]|(e & msgs & Hrs)].
  2: { open_request. stage_done Entities Hen. stage_done Topics Hto.
       stage_done Sentiment Hse. stage_done Ambiguities Ham.
       stage_done Timeline Htl. stage_done KeyPhrases Hkp.
       stage_failed Readability Hrs. stopped_at 9%nat Readability e Hrs. }
  destruct (detect_language_quiet (text i)) as [[la Hla]|(e & msgs & Hla)].
  2: { open_request. stage_done Entities Hen. stage_done Topics Hto.
       stage_done Sentiment Hse. stage_done Ambiguities Ham.
       stage_done Timeline Htl. stage_done KeyPhrases Hkp.
       stage_done Readability Hrs. stage_failed Language Hla.
       stopped_at 10%nat Language e Hla. }
  open_request. stage_done Entities Hen. stage_done Topics Hto.
  stage_done Sentiment Hse. stage_done Ambiguities Ham.
  stage_done Timeline Htl. stage_done KeyPhrases Hkp.
  stage_done Readability Hrs. stage_done Language Hla.
  destruct (redis_client E && truthy (session_id i)).
  - unfold setex. cbv beta iota zeta. norm_world. destruct up.
    + unfold ret. cbv beta iota zeta. norm_world.
      read_pair. exists 11%nat. split; [read_events | lia].
    + unfold logger_error, raise. cbv beta iota zeta. norm_world.
      read_pair. exists 11%nat. split; [read_events | right; read_events].
  - unfold ret. cbv beta iota zeta. norm_world.
    read_pair. exists 10%nat. split; [read_events | lia].
Qed.

(* ===================================================================== *)
(** ** The sentiment label follows the order of the scores *)
(* ===================================================================== *)

Section OrderFacts.

Ltac compare_cases :=
  repeat match goal with
         | H : context [Z.compare ?a ?b] |- _ => destruct (Z.compare_spec a b)
         | |- context [Z.compare ?a ?b] => destruct (Z.compare_spec a b)
         | H : context [Pos.compare ?a ?b] |- _ => destruct (Pos.compare_spec a b)
         | |- context [Pos.compare ?a ?b] => destruct (Pos.compare_spec a b)
         end.

Lemma SFleb_trans (x y z : spec_float) :
  SFleb x y = true -> SFleb y z = true -> SFleb x z = true.
Proof.
  unfold SFleb, SFcompare.
  destruct x as [sx|sx| |sx mx ex], y as [sy|sy| |sy my ey], z as [sz|sz| |sz mz ez];
    try destruct sx; try destruct sy; try destruct sz;
    try reflexivity; try discriminate;
    change (Pos.compare_cont Eq) with Pos.compare;
    intros H1 H2; compare_cases; subst;
    cbn [CompOpp] in *; try reflexivity; try discriminate; try lia.
Qed.

Lemma leb_trans (a b c : float) :
  (a <=? b)%float = true -> (b <=? c)%float = true -> (a <=? c)%float = true.
Proof. rewrite !leb_spec. apply SFleb_trans. Qed.

End OrderFacts.

(** X16.  The label follows the order of the scores: when one compound
    score is at most another, its label is not more positive than the
    label of the other (negative before neutral before positive). *)
Theorem sentiment_label_monotone (a b : float) :
  (a <=? b)%float = true ->
  label_rank (sentiment_label a) <= label_rank (sentiment_label b).
Proof.
  intros Hab. unfold sentiment_label, PyFloat.ge, PyFloat.le.
  destruct (0.05 <=? b)%float eqn:Hb.
  - destruct (0.05 <=? a)%float; [|destruct (a <=? -0.05)%float];
      vm_compute; discriminate.
  - destruct (0.05 <=? a)%float eqn:Ha.
    + rewrite (leb_trans _ _ _ Ha Hab) in Hb. discriminate Hb.
    + destruct (b <=? -0.05)%float eqn:Hb'.
      * rewrite (leb_trans _ _ _ Hab Hb'). vm_compute. discriminate.
      * destruct (a <=? -0.05)%float; vm_compute; discriminate.
Qed.

Lemma sentiment_label_monotone_witness :
  label_rank (sentiment_label (-0.3)) <= label_rank (sentiment_label 0.01) /\
  label_rank (sentiment_label 0.01) <= label_rank (sentiment_label 0.05).
Proof.
  split.
  - exact (sentiment_label_monotone (-0.3) 0.01 eq_refl).
  - exact (sentiment_label_monotone 0.01 0.05 eq_refl).
Defined.

(* ===================================================================== *)
(** ** The entities *)
(* ===================================================================== *)

(** X17.  When the pipeline returns a document, [/entities] returns
    one result for each entity of the document, in the order of the
    document: the result at a position has the text, the label and the
    two offsets of the entity at that position, and confidence 0.8;
    there is no result at a position where the document has no entity. *)
Theorem extract_entities_positions (E : Env) (f : string -> outcome Doc) (i : TextInput)
        (w : World) (doc : Doc) :
  nlp E = Some f ->
  f (text i) = Ok doc ->
  exists results,
    extract_entities E i w = (Ok results, w) /\
    length results = length (ents doc) /\
    forall k,
      match nth_error (ents doc) k with
      | Some ent =>
          nth_error results k =
          Some (mkEntityResult (span_text ent) (label_ ent) (start_char ent)
                               (end_char ent) 0.8%float)
      | None => nth_error results k = None
      end.
Proof.
  intros Hn Hf. exists (map entity_of_span (ents doc)). split.
  { unfold extract_entities. rewrite Hn. unfold try_except, bind, call, ret.
    rewrite Hf. rewrite fold_left_snoc. reflexivity. }
  split; [apply length_map|].
  intros k. rewrite nth_error_map.
  destruct (nth_error (ents doc) k); reflexivity.
Qed.

Lemma extract_entities_positions_witness :
  exists results,
    extract_entities Demo.env met_request (Demo.world true)
      = (Ok results, Demo.world true) /\
    nth_error results 1 = Some (mkEntityResult "next week" "DATE" 46 55 0.8%float).
Proof.
  destruct (extract_entities_positions
              Demo.env Demo.pipeline met_request (Demo.world true)
              (mkDoc [mkSpan "yesterday" "DATE" 7 16; mkSpan "next week" "DATE" 46 55]
                     ["We"; "I"; "we"])
              eq_refl eq_refl)
    as (results & Hrun & _ & Hk).
  exists results. split; [exact Hrun | exact (Hk 1%nat)].
Defined.
